(** * tf2_ros.buffer_interface: registries, conversion dispatch, facade

    A shallow embedding of [tf2_ros_py/tf2_ros/buffer_interface.py].

    - Python objects live in a heap of attribute dictionaries; a value is an
      atom or a reference into that heap, so that identity, aliasing and
      in-place mutation ([Stamped], [deepcopy]) are visible.
    - Code that may raise runs in a state-and-exception monad [M] over the
      heap; a raised exception keeps the heap as it was when it was raised.
    - The four class-level dictionaries of [TransformRegistration] and
      [ConvertRegistration] form one record [globals]; the methods receive
      [self] and, as in the source, never look at it.
    - Registered callbacks are arbitrary computations in [M].
    - What the module takes from outside itself is a parameter: the class
      [Environment] holds the depth to which the interpreter lets
      [copy.deepcopy] descend, which classes take which attributes, and
      the constructor of [std_msgs.msg.Header]. *)

From stdpp Require Import gmap strings list fin_maps.

Set Warnings "-register-all".

(** ** Values, objects, heap *)

Abbreviation loc := nat.
Abbreviation pytype := string.

Inductive value :=
  | VNone
  | VBool (b : bool)
  | VInt (z : Z)
  | VStr (s : string)
  | VRef (l : loc).

#[global] Instance value_eq_dec : EqDecision value.
Proof. solve_decision. Defined.

(** An instance: its class and its [__dict__], in insertion order. *)
Record object := Object {
  obj_type : pytype;
  obj_attrs : list (string * value)
}.

#[global] Instance object_eq_dec : EqDecision object.
Proof. solve_decision. Defined.

(** The heap is only ever extended or updated in place; the identity of an
    object is its index. *)
Abbreviation heap := (list object).

Fixpoint attr_get (name : string) (d : list (string * value)) : option value :=
  match d with
  | [] => None
  | (k, v) :: d' => if decide (k = name) then Some v else attr_get name d'
  end.

Fixpoint attr_set (name : string) (v : value) (d : list (string * value))
  : list (string * value) :=
  match d with
  | [] => [(name, v)]
  | (k, w) :: d' =>
      if decide (k = name) then (k, v) :: d' else (k, w) :: attr_set name v d'
  end.

(** ** Exceptions and the monad *)

Inductive exn :=
  | TypeException (errstr : string)
  | NotImplementedException
  | AttributeError (name : string)
  | RecursionError
  | SystemError
  | TypeError
  | CopyError
  | Exception (what : string).

Definition errstr (e : exn) : string :=
  match e with
  | TypeException s => s
  | NotImplementedException => "CanTransform or LookupTransform not implemented"
  | AttributeError s => s
  | RecursionError => "maximum recursion depth exceeded"
  | SystemError => "dangling reference"
  | TypeError => "object is not callable"
  | CopyError => "un(deep)copyable object"
  | Exception s => s
  end.

Inductive outcome (A : Type) :=
  | Ret (a : A)
  | Raise (e : exn).
Arguments Ret {A} a.
Arguments Raise {A} e.

Definition M (A : Type) : Type := heap → outcome A * heap.

#[global] Instance M_ret : MRet M := λ A a h, (Ret a, h).
#[global] Instance M_bind : MBind M := λ A B k m h,
  match m h with
  | (Ret a, h') => k a h'
  | (Raise e, h') => (Raise e, h')
  end.

Definition raise {A} (e : exn) : M A := λ h, (Raise e, h).

Definition lift {A} (o : outcome A) : M A := λ h, (o, h).

(** [try: body except TypeException: handler] *)
Definition try_except_TypeException {A} (body handler : M A) : M A := λ h,
  match body h with
  | (Raise (TypeException _), h') => handler h'
  | r => r
  end.

(** ** What the module takes from its environment *)

(** - [recursion_limit]: the number of nested instances [copy.deepcopy] can
      descend into before the interpreter raises [RecursionError]: about a
      quarter of the frames that the caller has left (249 for a call from
      the top level of CPython 3.11 with the default limit of 1000).
    - [accepts cls name]: whether an instance of [cls] takes an attribute
      [name]: always for a class with a [__dict__], for the declared names
      only for a class with [__slots__].
    - [Header frame_id stamp]: the constructor of [std_msgs.msg.Header],
      called as [Header(frame_id=..., stamp=...)]; it is not part of this
      module, and nothing is assumed of it. *)
Class Environment := {
  recursion_limit : nat;
  accepts : pytype → string → bool;
  Header : value → value → M value
}.

(** ** Primitive operations of the object model *)

Definition type_of (h : heap) (v : value) : option pytype :=
  match v with
  | VNone => Some "NoneType"
  | VBool _ => Some "bool"
  | VInt _ => Some "int"
  | VStr _ => Some "str"
  | VRef l => obj_type <$> h !! l
  end.

(** [type(v)] *)
Definition py_type (v : value) : M pytype := λ h,
  match type_of h v with
  | Some c => (Ret c, h)
  | None => (Raise SystemError, h)
  end.

(** [v.name] *)
Definition py_getattr (v : value) (name : string) : M value := λ h,
  match v with
  | VRef l =>
      match h !! l with
      | Some o =>
          match attr_get name (obj_attrs o) with
          | Some w => (Ret w, h)
          | None => (Raise (AttributeError name), h)
          end
      | None => (Raise SystemError, h)
      end
  | _ => (Raise (AttributeError name), h)
  end.

(** [v.name = w]: refused by an atom, and by an instance of a class that
    does not take the attribute. *)
Definition py_setattr {env : Environment} (v : value) (name : string)
    (w : value) : M unit := λ h,
  match v with
  | VRef l =>
      match h !! l with
      | Some o =>
          if accepts (obj_type o) name then
            (Ret (),
             <[l := Object (obj_type o) (attr_set name w (obj_attrs o))]> h)
          else (Raise (AttributeError name), h)
      | None => (Raise SystemError, h)
      end
  | _ => (Raise (AttributeError name), h)
  end.

(** Object creation: the new object gets the next free identity. *)
Definition alloc (o : object) : M value := λ h, (Ret (VRef (length h)), h ++ [o]).

(** [str(cls)] and [str((cls_a, cls_b))] *)
Definition str_type (c : pytype) : string := "<class '" +:+ c +:+ "'>".
Definition str_pair (k : pytype * pytype) : string :=
  "(" +:+ str_type k.1 +:+ ", " +:+ str_type k.2 +:+ ")".

(** ['Type %s is not loaded or supported' % s] *)
Definition not_loaded (s : string) : string :=
  "Type " +:+ s +:+ " is not loaded or supported".

(** ** [copy.deepcopy]

    The standard library's algorithm, for the values of this model: atoms
    and instances of classes that define no copy protocol of their own
    (no [__deepcopy__], [__reduce_ex__] or [__getstate__] in the class,
    no enumeration). Atoms are returned as they are. An
    instance already in the memo is answered from it. Otherwise the
    attributes that the algorithm looks up on the instance are consulted
    ([copy_protocol]); then a new empty instance of the same class is
    created and memoised, the attribute dictionary is copied recursively,
    and the copy is installed in the new instance. [fuel] is the depth to
    which the recursion may still descend; at depth 0 the interpreter
    raises [RecursionError]. *)

Abbreviation memo := (gmap loc loc).

Definition py_dict (l : loc) : M (list (string * value)) := λ h,
  match h !! l with
  | Some o => (Ret (obj_attrs o), h)
  | None => (Raise SystemError, h)
  end.

Definition py_dict_update (l : loc) (state : list (string * value)) : M unit := λ h,
  match h !! l with
  | Some o => (Ret (), <[l := Object (obj_type o) state]> h)
  | None => (Raise SystemError, h)
  end.

Definition new_object (cls : pytype) : M loc := λ h,
  (Ret (length h), h ++ [Object cls []]).

(** [bool(v)] *)
Definition truthy (v : value) : bool :=
  match v with
  | VNone => false
  | VBool b => b
  | VInt z => negb (Z.eqb z 0)
  | VStr s => negb (String.eqb s "")
  | VRef _ => true
  end.

(** [object.__reduce_ex__(4)] asks the instance for [__getstate__] and
    calls what it finds. *)
Definition copy_getstate (state : list (string * value)) : outcome unit :=
  match attr_get "__getstate__" state with
  | Some _ => Raise TypeError
  | None => Ret ()
  end.

(** The lookups [getattr(x, "__deepcopy__", None)],
    [getattr(x, "__reduce_ex__", None)] and [getattr(x, "__reduce__", None)]
    of [copy.deepcopy] find an attribute of the instance before the method
    of [object]. No value of the model is callable, so calling what was
    found raises [TypeError]. *)
Definition copy_protocol (state : list (string * value)) : outcome unit :=
  match attr_get "__deepcopy__" state with
  | Some VNone | None =>
      match attr_get "__reduce_ex__" state with
      | None => copy_getstate state
      | Some VNone =>
          match attr_get "__reduce__" state with
          | None => copy_getstate state
          | Some v => if truthy v then Raise TypeError else Raise CopyError
          end
      | Some _ => Raise TypeError
      end
  | Some _ => Raise TypeError
  end.

Definition copy_state (rec : value → memo → M (value * memo)) :=
  fix go (state : list (string * value)) (m : memo)
    : M (list (string * value) * memo) :=
    match state with
    | [] => mret ([], m)
    | (name, v) :: rest =>
        '(v', m1) ← rec v m;
        '(rest', m2) ← go rest m1;
        mret ((name, v') :: rest', m2)
    end.

Fixpoint deepcopy_aux (fuel : nat) (x : value) (m : memo) : M (value * memo) :=
  match x with
  | VRef l =>
      match m !! l with
      | Some y => mret (VRef y, m)
      | None =>
          match fuel with
          | 0 => raise RecursionError
          | S n =>
              cls ← py_type x;
              state ← py_dict l;
              lift (copy_protocol state);;
              y ← new_object cls;
              '(state', m') ← copy_state (deepcopy_aux n) state (<[l := y]> m);
              py_dict_update y state';;
              mret (VRef y, m')
          end
      end
  | _ => mret (x, m)
  end.

Definition deepcopy {env : Environment} (x : value) : M value :=
  '(y, _) ← deepcopy_aux recursion_limit x ∅; mret y.

(** ** The process-wide registries *)

Abbreviation transform_callback := (value → value → M value).
Abbreviation convert_callback := (value → M value).

(** The class attributes [TransformRegistration.__type_map],
    [ConvertRegistration.__to_msg_map], [.__from_msg_map], [.__convert_map]. *)
Record globals := Globals {
  type_map : gmap pytype transform_callback;
  to_msg_map : gmap pytype convert_callback;
  from_msg_map : gmap pytype convert_callback;
  convert_map : gmap (pytype * pytype) convert_callback
}.

(** State of a freshly imported module. *)
Definition globals_init : globals := Globals ∅ ∅ ∅ ∅.

Module TransformRegistration.

(** An instance has an identity and no attributes of its own. *)
Inductive t := new (id : nat).

Definition add (self : t) (key : pytype) (callback : transform_callback)
    (g : globals) : outcome unit * globals :=
  (Ret (),
   Globals (<[key := callback]> (type_map g))
           (to_msg_map g) (from_msg_map g) (convert_map g)).

Definition get (self : t) (key : pytype) (g : globals)
    : outcome transform_callback :=
  match type_map g !! key with
  | None => Raise (TypeException (not_loaded (str_type key)))
  | Some callback => Ret callback
  end.

End TransformRegistration.

Module ConvertRegistration.

Inductive t := new (id : nat).

Definition add_from_msg (self : t) (key : pytype) (callback : convert_callback)
    (g : globals) : outcome unit * globals :=
  (Ret (),
   Globals (type_map g) (to_msg_map g)
           (<[key := callback]> (from_msg_map g)) (convert_map g)).

Definition add_to_msg (self : t) (key : pytype) (callback : convert_callback)
    (g : globals) : outcome unit * globals :=
  (Ret (),
   Globals (type_map g) (<[key := callback]> (to_msg_map g))
           (from_msg_map g) (convert_map g)).

Definition add_convert (self : t) (key : pytype * pytype)
    (callback : convert_callback) (g : globals) : outcome unit * globals :=
  (Ret (),
   Globals (type_map g) (to_msg_map g) (from_msg_map g)
           (<[key := callback]> (convert_map g))).

Definition get_from_msg (self : t) (key : pytype) (g : globals)
    : outcome convert_callback :=
  match from_msg_map g !! key with
  | None => Raise (TypeException (not_loaded (str_type key)))
  | Some callback => Ret callback
  end.

Definition get_to_msg (self : t) (key : pytype) (g : globals)
    : outcome convert_callback :=
  match to_msg_map g !! key with
  | None => Raise (TypeException (not_loaded (str_type key)))
  | Some callback => Ret callback
  end.

Definition get_convert (self : t) (key : pytype * pytype) (g : globals)
    : outcome convert_callback :=
  match convert_map g !! key with
  | None => Raise (TypeException (not_loaded (str_pair key)))
  | Some callback => Ret callback
  end.

End ConvertRegistration.

(** ** [Stamped] *)

Definition Stamped {env : Environment} (obj stamp frame_id : value)
    : M value :=
  hdr ← Header frame_id stamp;
  py_setattr obj "header" hdr;;
  mret obj.

(** ** Conversion dispatch and the facade *)

(** The capabilities a concrete buffer supplies. *)
Class BufferInterface (B : Type) := {
  registration : B → TransformRegistration.t;
  lookup_transform : B → value → value → value → value → M value;
  lookup_transform_full :
    B → value → value → value → value → value → value → M value;
  can_transform : B → value → value → value → value → M bool;
  can_transform_full :
    B → value → value → value → value → value → value → M bool
}.

(** The class [BufferInterface] itself: every capability raises. *)
Inductive AbstractBuffer := abstract_buffer (reg : TransformRegistration.t).

#[global] Instance abstract_buffer_interface : BufferInterface AbstractBuffer := {
  registration := λ '(abstract_buffer reg), reg;
  lookup_transform := λ _ _ _ _ _, raise NotImplementedException;
  lookup_transform_full := λ _ _ _ _ _ _ _, raise NotImplementedException;
  can_transform := λ _ _ _ _ _, raise NotImplementedException;
  can_transform_full := λ _ _ _ _ _ _ _, raise NotImplementedException
}.

Section Dispatch.

Context {env : Environment}.

(** The class hierarchy: for each class, its proper ancestors (the tail
    of its [__mro__]). *)
Variable ancestors : pytype → list pytype.

Definition issubclass (c T : pytype) : bool :=
  bool_decide (c = T) || bool_decide (T ∈ ancestors c).

Definition isinstance (a : value) (T : pytype) : M bool :=
  c ← py_type a; mret (issubclass c T).

Variable g : globals.

(** The body of the [except TypeException] clause of [convert]. *)
Definition convert_fallback (c : ConvertRegistration.t) (a : value)
    (b_type : pytype) : M value :=
  inst ← isinstance a b_type;
  if inst : bool then deepcopy a
  else
    ta ← py_type a;
    f_to ← lift (ConvertRegistration.get_to_msg c ta g);
    f_from ← lift (ConvertRegistration.get_from_msg c b_type g);
    msg ← f_to a;
    f_from msg.

(** [c = ConvertRegistration()] makes an instance of its own on every call;
    which one it is plays no role, since the getters ignore [self]. *)
Definition convert (a : value) (b_type : pytype) : M value :=
  let c := ConvertRegistration.new 0 in
  try_except_TypeException
    (ta ← py_type a;
     f ← lift (ConvertRegistration.get_convert c (ta, b_type) g);
     f a)
    (convert_fallback c a b_type).

Context {B : Type} `{!BufferInterface B}.

Definition transform (self : B) (object_stamped target_frame timeout : value)
    (new_type : option pytype) : M value :=
  ty ← py_type object_stamped;
  do_transform ← lift (TransformRegistration.get (registration self) ty g);
  header ← py_getattr object_stamped "header";
  frame_id ← py_getattr header "frame_id";
  header' ← py_getattr object_stamped "header";
  stamp ← py_getattr header' "stamp";
  tf ← lookup_transform self target_frame frame_id stamp timeout;
  res ← do_transform object_stamped tf;
  match new_type with
  | None => mret res
  | Some T => convert res T
  end.

Definition transform_full (self : B)
    (object_stamped target_frame target_time fixed_frame timeout : value)
    (new_type : option pytype) : M value :=
  ty ← py_type object_stamped;
  do_transform ← lift (TransformRegistration.get (registration self) ty g);
  header ← py_getattr object_stamped "header";
  frame_id ← py_getattr header "frame_id";
  header' ← py_getattr object_stamped "header";
  stamp ← py_getattr header' "stamp";
  tf ← lookup_transform_full self target_frame target_time frame_id stamp
         fixed_frame timeout;
  res ← do_transform object_stamped tf;
  match new_type with
  | None => mret res
  | Some T => convert res T
  end.

End Dispatch.

(** ** Sequences of registrations *)

Inductive reg_op :=
  | RegTransform (self : TransformRegistration.t) (key : pytype)
      (callback : transform_callback)
  | RegFromMsg (self : ConvertRegistration.t) (key : pytype)
      (callback : convert_callback)
  | RegToMsg (self : ConvertRegistration.t) (key : pytype)
      (callback : convert_callback)
  | RegConvert (self : ConvertRegistration.t) (key : pytype * pytype)
      (callback : convert_callback).

Definition register (r : reg_op) (g : globals) : outcome unit * globals :=
  match r with
  | RegTransform self key callback => TransformRegistration.add self key callback g
  | RegFromMsg self key callback => ConvertRegistration.add_from_msg self key callback g
  | RegToMsg self key callback => ConvertRegistration.add_to_msg self key callback g
  | RegConvert self key callback => ConvertRegistration.add_convert self key callback g
  end.

Definition register_all (rs : list reg_op) (g : globals) : globals :=
  foldl (λ g r, (register r g).2) g rs.

(** ** Notions used to describe copies *)

(** [l'] can be reached from [l] by following attributes. *)
Inductive reachable (h : heap) : loc → loc → Prop :=
  | reachable_refl l : reachable h l l
  | reachable_step l o name l' k :
      h !! l = Some o →
      (name, VRef l') ∈ obj_attrs o →
      reachable h l' k →
      reachable h l k.

(** What can be observed of a value without comparing identities: its
    unfolding into a tree of classes, attribute names and atoms, to a
    given depth. *)
Inductive content :=
  | CAtom (v : value)
  | CObj (cls : pytype) (fields : list (string * content))
  | CCut.

Fixpoint unfold (n : nat) (h : heap) (v : value) : content :=
  match v with
  | VRef l =>
      match n with
      | 0 => CCut
      | S n' =>
          match h !! l with
          | Some o =>
              CObj (obj_type o)
                   (map (λ a, (a.1, unfold n' h a.2)) (obj_attrs o))
          | None => CCut
          end
      end
  | _ => CAtom v
  end.

(** The copy of [x] is [x'] according to the memo. *)
Definition vrel (m : memo) (v v' : value) : Prop :=
  match v with
  | VRef x => ∃ y, m !! x = Some y ∧ v' = VRef y
  | _ => v' = v
  end.

Definition val_new (lo hi : nat) (v : value) : Prop :=
  match v with
  | VRef l => lo ≤ l < hi
  | _ => True
  end.

Definition attrs_rel (m : memo) (d d' : list (string * value)) : Prop :=
  Forall2 (λ a a', a.1 = a'.1 ∧ vrel m a.2 a'.2) d d'.

(** The invariant of a running [deepcopy] of the heap [h0]: the original
    objects are untouched, the memo sends original objects to new ones,
    new objects only point to new objects, and every memoised object that
    is not still under construction ([pending]) has a finished copy. *)
Record copy_inv (h0 : heap) (pending : list loc) (m : memo) (h : heap) : Prop := {
  inv_prefix : h0 `prefix_of` h;
  inv_range : ∀ k y : loc, m !! k = Some y → k < length h0 ∧ length h0 ≤ y < length h;
  inv_inj : ∀ k1 k2 y : loc, m !! k1 = Some y → m !! k2 = Some y → k1 = k2;
  inv_new : ∀ (y : loc) (o' : object), length h0 ≤ y → h !! y = Some o' →
      Forall (λ a, val_new (length h0) (length h) a.2) (obj_attrs o');
  inv_done : ∀ k y : loc, m !! k = Some y → k ∉ pending →
      ∃ o o', h0 !! k = Some o ∧ h !! y = Some o' ∧
              obj_type o' = obj_type o ∧
              attrs_rel m (obj_attrs o) (obj_attrs o')
}.

(** [R] is a set of instances of [h], closed under attributes, that
    [copy.deepcopy] copies without objection: the set of what is reachable
    from an instance, or any larger such set. *)
Definition regionb (h : heap) (R : gset loc) : bool :=
  forallb
    (λ k, match h !! k with
          | Some o =>
              match copy_protocol (obj_attrs o) with
              | Ret _ => true
              | Raise _ => false
              end
              && forallb (λ a, match a.2 with
                               | VRef k' => bool_decide (k' ∈ R)
                               | _ => true
                               end) (obj_attrs o)
          | None => false
          end)
    (elements R).

Definition region (h : heap) (R : gset loc) : Prop := regionb h R = true.

Definition in_region (R : gset loc) (v : value) : Prop :=
  match v with
  | VRef l => l ∈ R
  | _ => True
  end.

(** What one recursive call of [deepcopy_aux] guarantees. *)
Definition copy_post (h0 : heap) (R : gset loc) (pending : list loc)
    (m : memo) (h : heap) (x : value)
    (r : outcome (value * memo) * heap) : Prop :=
  ∃ x' m' h', r = (Ret (x', m'), h') ∧ m ⊆ m' ∧ h `prefix_of` h' ∧
    copy_inv h0 pending m' h' ∧ vrel m' x x' ∧
    val_new (length h0) (length h') x' ∧ dom m' ⊆ R.

(** What [deepcopy] returns when it copies the object [l] of [h]. *)
Definition is_deep_copy (h : heap) (l : loc) (r : outcome value * heap) : Prop :=
  ∃ l' h', r = (Ret (VRef l'), h') ∧
    l' ≠ l ∧ length h ≤ l' ∧
    h `prefix_of` h' ∧
    (∀ k, reachable h' l' k → length h ≤ k) ∧
    (∀ n, unfold n h' (VRef l') = unfold n h (VRef l)).

(** ** A small concrete world on which the statements are exercised *)

Module Scenario.

(** [MyPoint] derives from [PointStamped]; nothing else is related. *)
Definition ancestors (c : pytype) : list pytype :=
  if decide (c = "MyPoint") then ["PointStamped"] else [].

(** A time, a header in frame [laser], and a [MyPoint] carrying it. *)
Definition h : heap :=
  [ Object "Time" [("sec", VInt 5)];
    Object "std_msgs.msg.Header" [("stamp", VRef 0); ("frame_id", VStr "laser")];
    Object "MyPoint" [("header", VRef 1); ("x", VInt 7)] ].

Definition p : value := VRef 2.

(** Modelled from the spec: the constructor of [std_msgs.msg.Header],
    which is not under [src/]. The spec has [Stamped] attach "a header
    (frame_id, time)": the constructor makes a new message object that
    holds the two fields as they are given. *)
Definition make_header (frame_id stamp : value) : M value := λ h,
  (Ret (VRef (length h)),
   h ++ [Object "std_msgs.msg.Header" [("stamp", stamp); ("frame_id", frame_id)]]).

(** An interpreter whose recursion limit lets [copy.deepcopy] descend
    through four nested instances; [Time] has [__slots__] for its two
    fields and every other class has a [__dict__]. *)
#[local] Instance env : Environment := {
  recursion_limit := 4;
  accepts := λ cls name,
    if decide (cls = "Time") then bool_decide (name ∈ ["sec"; "nanosec"])
    else true;
  Header := make_header
}.

(** A buffer that answers every lookup with a new transform object. *)
Inductive StubBuffer := stub_buffer (reg : TransformRegistration.t).

#[global] Instance stub_buffer_interface : BufferInterface StubBuffer := {
  registration := λ '(stub_buffer reg), reg;
  lookup_transform := λ _ target source stamp _,
    hdr ← Header target stamp;
    alloc (Object "TransformStamped" [("header", hdr); ("child_frame_id", source)]);
  lookup_transform_full := λ _ target target_time source _ _ _,
    hdr ← Header target target_time;
    alloc (Object "TransformStamped" [("header", hdr); ("child_frame_id", source)]);
  can_transform := λ _ _ _ _ _, mret false;
  can_transform_full := λ _ _ _ _ _ _ _, mret false
}.

Definition buffer : StubBuffer := stub_buffer (TransformRegistration.new 7).

(** Copies the object and gives the copy the header of the transform. *)
Definition do_transform_point : transform_callback := λ obj tf,
  q ← deepcopy obj;
  hdr ← py_getattr tf "header";
  py_setattr q "header" hdr;;
  mret q.

Definition sentinel (s : string) : convert_callback := λ _, mret (VStr s).

(** A direct converter that itself runs into a registry miss. *)
Definition failing : convert_callback := λ _, raise (TypeException "inner").

Definition g : globals :=
  register_all
    [ RegTransform (TransformRegistration.new 1) "MyPoint" do_transform_point;
      RegToMsg (ConvertRegistration.new 2) "MyPoint" (sentinel "to_msg");
      RegFromMsg (ConvertRegistration.new 3) "Vector" (sentinel "bridge");
      RegConvert (ConvertRegistration.new 4) ("MyPoint", "Frame") (sentinel "direct") ]
    globals_init.

(** [g] with a failing direct converter next to a complete bridge. *)
Definition g_failing : globals :=
  (ConvertRegistration.add_convert (ConvertRegistration.new 5)
     ("MyPoint", "Vector") failing g).2.

End Scenario.

(** ** Notions used for the further properties *)

(** The table entry that a registration writes. *)
Inductive slot :=
  | SlotTransform (key : pytype)
  | SlotFromMsg (key : pytype)
  | SlotToMsg (key : pytype)
  | SlotConvert (key : pytype * pytype).

Definition reg_slot (r : reg_op) : slot :=
  match r with
  | RegTransform _ key _ => SlotTransform key
  | RegFromMsg _ key _ => SlotFromMsg key
  | RegToMsg _ key _ => SlotToMsg key
  | RegConvert _ key _ => SlotConvert key
  end.

(** The value found by following a path of attribute names. *)
Fixpoint follow (h : heap) (v : value) (path : list string) : option value :=
  match path with
  | [] => Some v
  | name :: path' =>
      match v with
      | VRef l =>
          match h !! l with
          | Some o =>
              match attr_get name (obj_attrs o) with
              | Some w => follow h w path'
              | None => None
              end
          | None => None
          end
      | _ => None
      end
  end.

(** The function in force for [key] after the registrations [rs], made one
    after the other, when [before] was in force before them. *)
Fixpoint effective_transform (key : pytype) (rs : list reg_op)
    (before : option transform_callback) : option transform_callback :=
  match rs with
  | [] => before
  | RegTransform _ k callback :: rs' =>
      effective_transform key rs'
        (if decide (k = key) then Some callback else before)
  | _ :: rs' => effective_transform key rs' before
  end.

(** * Properties *)

(** ** The monad *)

Lemma bind_Ret {A C} (m : M A) (k : A → M C) h a h' :
  m h = (Ret a, h') → (m ≫= k) h = k a h'.
Proof. intros E. unfold mbind, M_bind. by rewrite E. Qed.

Lemma bind_Raise {A C} (m : M A) (k : A → M C) h e h' :
  m h = (Raise e, h') → (m ≫= k) h = (Raise e, h').
Proof. intros E. unfold mbind, M_bind. by rewrite E. Qed.

Lemma py_type_Some h v c : type_of h v = Some c → py_type v h = (Ret c, h).
Proof. intros E. unfold py_type. by rewrite E. Qed.

(** ** The registries *)

Lemma issubclass_refl ancestors c : issubclass ancestors c c = true.
Proof. unfold issubclass. by rewrite bool_decide_eq_true_2. Qed.

Lemma issubclass_spec ancestors c T :
  issubclass ancestors c T = true ↔ c = T ∨ T ∈ ancestors c.
Proof.
  unfold issubclass. rewrite orb_true_iff, !bool_decide_eq_true. tauto.
Qed.

(** An entry survives the insertion of any entry. *)
Ltac kept_after_insert key k :=
  intros ?; destruct (decide (key = k)) as [->|?];
  [rewrite lookup_insert_eq; eauto | by rewrite lookup_insert_ne].

Lemma register_ok r g : (register r g).1 = Ret ().
Proof. by destruct r. Qed.

Lemma register_keeps_type_map r g k :
  is_Some (type_map g !! k) → is_Some (type_map (register r g).2 !! k).
Proof. destruct r; simpl; try done; kept_after_insert key k. Qed.

Lemma register_keeps_from_msg_map r g k :
  is_Some (from_msg_map g !! k) → is_Some (from_msg_map (register r g).2 !! k).
Proof. destruct r; simpl; try done; kept_after_insert key k. Qed.

Lemma register_keeps_to_msg_map r g k :
  is_Some (to_msg_map g !! k) → is_Some (to_msg_map (register r g).2 !! k).
Proof. destruct r; simpl; try done; kept_after_insert key k. Qed.

Lemma register_keeps_convert_map r g k :
  is_Some (convert_map g !! k) → is_Some (convert_map (register r g).2 !! k).
Proof. destruct r; simpl; try done; kept_after_insert key k. Qed.

Lemma register_all_keeps rs : ∀ g,
  (∀ k, is_Some (type_map g !! k) → is_Some (type_map (register_all rs g) !! k)) ∧
  (∀ k, is_Some (from_msg_map g !! k) → is_Some (from_msg_map (register_all rs g) !! k)) ∧
  (∀ k, is_Some (to_msg_map g !! k) → is_Some (to_msg_map (register_all rs g) !! k)) ∧
  (∀ k, is_Some (convert_map g !! k) → is_Some (convert_map (register_all rs g) !! k)).
Proof.
  induction rs as [|r rs IH]; intros g; [done|].
  destruct (IH (register r g).2) as (H1 & H2 & H3 & H4).
  repeat split; intros k Hk; simpl.
  - apply H1. by apply register_keeps_type_map.
  - apply H2. by apply register_keeps_from_msg_map.
  - apply H3. by apply register_keeps_to_msg_map.
  - apply H4. by apply register_keeps_convert_map.
Qed.

(** ** [convert], path by path *)

Section ConvertPaths.

Context {env : Environment}.
Variable ancestors : pytype → list pytype.
Variable g : globals.

Lemma convert_direct_eq a T h c f :
  type_of h a = Some c →
  convert_map g !! (c, T) = Some f →
  convert ancestors g a T h
  = try_except_TypeException (f a)
      (convert_fallback ancestors g (ConvertRegistration.new 0) a T) h.
Proof.
  intros Hty Hf. unfold convert, try_except_TypeException.
  rewrite (bind_Ret _ _ _ _ _ (py_type_Some _ _ _ Hty)).
  unfold lift, ConvertRegistration.get_convert, mbind, M_bind.
  by rewrite Hf.
Qed.

Lemma convert_direct_no_TypeException a T h c f r :
  type_of h a = Some c →
  convert_map g !! (c, T) = Some f →
  f a h = r →
  (∀ s, r.1 ≠ Raise (TypeException s)) →
  convert ancestors g a T h = r.
Proof.
  intros Hty Hf <- Hr. rewrite (convert_direct_eq _ _ _ _ _ Hty Hf).
  unfold try_except_TypeException.
  destruct (f a h) as [[v|[]] h']; try done.
  by destruct (Hr errstr0).
Qed.

Lemma convert_miss_eq a T h c :
  type_of h a = Some c →
  convert_map g !! (c, T) = None →
  convert ancestors g a T h
  = convert_fallback ancestors g (ConvertRegistration.new 0) a T h.
Proof.
  intros Hty Hf. unfold convert, try_except_TypeException.
  rewrite (bind_Ret _ _ _ _ _ (py_type_Some _ _ _ Hty)).
  unfold lift, ConvertRegistration.get_convert, mbind, M_bind.
  by rewrite Hf.
Qed.

Lemma fallback_isinstance self a T h c :
  type_of h a = Some c →
  issubclass ancestors c T = true →
  convert_fallback ancestors g self a T h = deepcopy a h.
Proof.
  intros Hty Hsub. unfold convert_fallback, isinstance.
  unfold mbind at 1. unfold M_bind.
  rewrite (bind_Ret _ _ _ _ _ (py_type_Some _ _ _ Hty)).
  unfold mret, M_ret. by rewrite Hsub.
Qed.

Lemma fallback_bridge self a T h c :
  type_of h a = Some c →
  issubclass ancestors c T = false →
  convert_fallback ancestors g self a T h
  = (f_to ← lift (ConvertRegistration.get_to_msg self c g);
     f_from ← lift (ConvertRegistration.get_from_msg self T g);
     msg ← f_to a;
     f_from msg) h.
Proof.
  intros Hty Hsub. unfold convert_fallback, isinstance.
  unfold mbind at 1. unfold M_bind at 1.
  rewrite (bind_Ret _ _ _ _ _ (py_type_Some _ _ _ Hty)).
  unfold mret, M_ret. rewrite Hsub.
  by rewrite (bind_Ret _ _ _ _ _ (py_type_Some _ _ _ Hty)).
Qed.

End ConvertPaths.

(** ** Auxiliary facts about heaps, memos and attribute dictionaries *)

Lemma vrel_mono (m m' : memo) v v' : m ⊆ m' → vrel m v v' → vrel m' v v'.
Proof.
  intros Hsub. destruct v; simpl; try done.
  intros (y & Hy & ->). exists y. split; [|done].
  by eapply lookup_weaken.
Qed.

Lemma attrs_rel_mono (m m' : memo) d d' :
  m ⊆ m' → attrs_rel m d d' → attrs_rel m' d d'.
Proof.
  intros Hsub Hrel. unfold attrs_rel in *.
  eapply Forall2_impl; [exact Hrel|].
  intros a a' [? ?]. split; [done|]. by eapply vrel_mono.
Qed.

Lemma val_new_mono lo hi hi' v : hi ≤ hi' → val_new lo hi v → val_new lo hi' v.
Proof. destruct v; simpl; try done. lia. Qed.

Lemma memo_size_bound (m : memo) n :
  (∀ k y, m !! k = Some y → k < n) → size m ≤ n.
Proof.
  intros Hm. rewrite <-(size_dom (D := gset loc)).
  rewrite <-(size_set_seq (C := gset loc) 0 n).
  apply subseteq_size. intros k Hk.
  apply elem_of_dom in Hk as [y Hy].
  apply elem_of_set_seq. specialize (Hm _ _ Hy). lia.
Qed.

Lemma prefix_insert_ge (h h' : heap) y o :
  h `prefix_of` h' → length h ≤ y → h `prefix_of` <[y := o]> h'.
Proof.
  intros [ext ->] Hy. rewrite insert_app_r_alt by done. by eexists.
Qed.

Lemma attr_get_set_eq name v d : attr_get name (attr_set name v d) = Some v.
Proof.
  induction d as [|[k w] d IH]; simpl.
  - by rewrite decide_True.
  - destruct (decide (k = name)) as [->|Hne]; simpl.
    + by rewrite decide_True.
    + by rewrite decide_False.
Qed.

Lemma attr_get_set_ne name name' v d :
  name ≠ name' → attr_get name' (attr_set name v d) = attr_get name' d.
Proof.
  intros Hne. induction d as [|[k w] d IH]; simpl.
  - by rewrite decide_False.
  - destruct (decide (k = name)) as [->|Hk]; simpl.
    + by rewrite !decide_False.
    + destruct (decide (k = name')); [done|]. apply IH.
Qed.

Lemma copy_inv_init (h : heap) : copy_inv h [] ∅ h.
Proof.
  split.
  - done.
  - intros k y Hk. by rewrite lookup_empty in Hk.
  - intros k1 k2 y Hk. by rewrite lookup_empty in Hk.
  - intros y o' Hy Hl. apply lookup_lt_Some in Hl. lia.
  - intros k y Hk. by rewrite lookup_empty in Hk.
Qed.

Lemma region_lookup (h : heap) (R : gset loc) k :
  region h R → k ∈ R →
  ∃ o, h !! k = Some o ∧ copy_protocol (obj_attrs o) = Ret () ∧
       Forall (λ a, in_region R a.2) (obj_attrs o).
Proof.
  unfold region, regionb. intros HR Hk.
  apply Is_true_true_2, forallb_True in HR. rewrite Forall_forall in HR.
  specialize (HR k). rewrite elem_of_elements in HR. specialize (HR Hk).
  destruct (h !! k) as [o|]; [|done]. exists o.
  apply andb_True in HR as [Hp Ha]. split_and!; [done| |].
  - by destruct (copy_protocol (obj_attrs o)) as [[]|].
  - apply forallb_True in Ha. eapply Forall_impl; [exact Ha|].
    intros [name v]. simpl. destruct v; simpl; try done.
    apply bool_decide_unpack.
Qed.

Lemma memo_size_within (m : memo) (R : gset loc) :
  dom m ⊆ R → size m ≤ size R.
Proof.
  intros Hsub. rewrite <-(size_dom (D := gset loc)). by apply subseteq_size.
Qed.

Section DeepcopyCorrect.

Variable h0 : heap.
Variable R : gset loc.
Hypothesis HR : region h0 R.

Lemma copy_state_spec rec n pending :
  (∀ x m h, copy_inv h0 pending m h → in_region R x → dom m ⊆ R →
            size R ≤ n + size m →
            copy_post h0 R pending m h x (rec x m h)) →
  ∀ state m h,
    copy_inv h0 pending m h →
    Forall (λ a, in_region R a.2) state →
    dom m ⊆ R →
    size R ≤ n + size m →
    ∃ state' m' h',
      copy_state rec state m h = (Ret (state', m'), h') ∧
      m ⊆ m' ∧ h `prefix_of` h' ∧ copy_inv h0 pending m' h' ∧
      attrs_rel m' state state' ∧
      Forall (λ a, val_new (length h0) (length h') a.2) state' ∧
      dom m' ⊆ R.
Proof.
  intros Hrec state.
  induction state as [|[name v] rest IH]; intros m h Hinv Hok Hdom Hfuel.
  - exists [], m, h. split_and!; try done; constructor.
  - apply Forall_cons in Hok as [Hv Hrest]. simpl in Hv.
    destruct (Hrec v m h Hinv Hv Hdom Hfuel)
      as (v' & m1 & h1 & E1 & Hm1 & Hh1 & Hinv1 & Hrel1 & Hnew1 & Hdom1).
    assert (Hfuel1 : size R ≤ n + size m1).
    { apply map_subseteq_size in Hm1. lia. }
    destruct (IH m1 h1 Hinv1 Hrest Hdom1 Hfuel1)
      as (rest' & m2 & h2 & E2 & Hm2 & Hh2 & Hinv2 & Hrel2 & Hnew2 & Hdom2).
    exists ((name, v') :: rest'), m2, h2. split_and!.
    + simpl. rewrite (bind_Ret _ _ _ _ _ E1). simpl.
      by rewrite (bind_Ret _ _ _ _ _ E2).
    + by transitivity m1.
    + by transitivity h1.
    + done.
    + constructor; [|done]. split; [done|]. simpl. by eapply vrel_mono.
    + constructor; [|done]. simpl. eapply val_new_mono; [|done].
      by apply prefix_length.
    + done.
Qed.

Lemma deepcopy_aux_atom fuel pending x m h :
  copy_inv h0 pending m h → (∀ l, x ≠ VRef l) → dom m ⊆ R →
  copy_post h0 R pending m h x (deepcopy_aux fuel x m h).
Proof.
  intros Hinv Hx Hdom. exists x, m, h.
  destruct x as [| | | |l]; [..|by destruct (Hx l)];
    by destruct fuel; split_and!.
Qed.

Lemma deepcopy_aux_memoised fuel pending l y m h :
  copy_inv h0 pending m h → m !! l = Some y → dom m ⊆ R →
  copy_post h0 R pending m h (VRef l) (deepcopy_aux fuel (VRef l) m h).
Proof.
  intros Hinv Hml Hdom. exists (VRef y), m, h. split_and!; try done.
  - destruct fuel; simpl; by rewrite Hml.
  - by exists y.
  - simpl. destruct (inv_range _ _ _ _ Hinv _ _ Hml). lia.
Qed.

(** With fuel for every instance of the region that is not yet in the
    memo, a call returns, and keeps the invariant. *)
Lemma deepcopy_aux_spec fuel : ∀ pending x m h,
  copy_inv h0 pending m h → in_region R x → dom m ⊆ R →
  size R ≤ fuel + size m →
  copy_post h0 R pending m h x (deepcopy_aux fuel x m h).
Proof.
  induction fuel as [|n IH]; intros pending x m h Hinv Hx Hdom Hfuel.
  all: destruct x as [| | | |l]; try by apply deepcopy_aux_atom.
  all: destruct (m !! l) as [y|] eqn:Hml;
    [by eapply deepcopy_aux_memoised|].
  all: simpl in Hx.
  all: assert (Hdom1 : ∀ y, dom (<[l := y]> m) ⊆ R)
    by (intros y; rewrite dom_insert_L;
        apply union_least; [by apply singleton_subseteq_l|done]).
  all: assert (Hsz : S (size m) ≤ size R)
    by (rewrite <-(map_size_insert_None l 0 m Hml);
        apply memo_size_within, Hdom1).
  { lia. }
  destruct (region_lookup _ _ _ HR Hx) as (o & Ho & Hplain & Hattrs).
  pose proof (lookup_lt_Some _ _ _ Ho) as Hlt.
  pose proof (prefix_lookup_Some _ _ _ _ Ho (inv_prefix _ _ _ _ Hinv)) as Hho.
  pose proof (prefix_length _ _ (inv_prefix _ _ _ _ Hinv)) as Hlen.
  set (y := length h). set (h1 := h ++ [Object (obj_type o) []]).
  set (m1 := <[l := y]> m).
  assert (Hlen1 : length h1 = S (length h))
    by (unfold h1; rewrite length_app; simpl; lia).
  assert (Hinv1 : copy_inv h0 (l :: pending) m1 h1).
  { split.
    - apply prefix_app_r, Hinv.
    - intros k y' [[<- <-]|[Hne Hk]]%lookup_insert_Some; [unfold y; lia|].
      destruct (inv_range _ _ _ _ Hinv _ _ Hk). lia.
    - intros k1 k2 y' [[<- <-]|[Hne1 Hk1]]%lookup_insert_Some
                      [[<- Hy]|[Hne2 Hk2]]%lookup_insert_Some; try done.
      + destruct (inv_range _ _ _ _ Hinv _ _ Hk2). unfold y in *. lia.
      + destruct (inv_range _ _ _ _ Hinv _ _ Hk1). unfold y in *. lia.
      + by eapply (inv_inj _ _ _ _ Hinv).
    - intros y' o' Hy' Hl'. destruct (decide (y' < length h)) as [Hlt'|Hge].
      + unfold h1 in Hl'. rewrite lookup_app_l in Hl' by done.
        eapply Forall_impl; [by eapply (inv_new _ _ _ _ Hinv)|].
        intros a Ha. eapply val_new_mono; [|exact Ha]. lia.
      + apply lookup_lt_Some in Hl' as Hlt'.
        assert (y' = length h) as -> by lia.
        unfold h1 in Hl'. rewrite list_lookup_middle in Hl' by done.
        injection Hl' as <-. constructor.
    - intros k y' [[<- <-]|[Hne Hk]]%lookup_insert_Some Hnp;
        [by destruct Hnp; left|].
      destruct (inv_done _ _ _ _ Hinv k y' Hk) as (o1 & o1' & ? & ? & ? & ?);
        [by intros ?; apply Hnp; right|].
      exists o1, o1'. split_and!; try done.
      + by apply lookup_app_l_Some.
      + eapply attrs_rel_mono; [|done]. by apply insert_subseteq. }
  destruct (copy_state_spec (deepcopy_aux n) n (l :: pending)
              (IH (l :: pending)) (obj_attrs o) m1 h1 Hinv1 Hattrs (Hdom1 y))
    as (state' & m2 & h2 & E & Hm2 & Hh2 & Hinv2 & Hrel & Hnew & Hdom2).
  { unfold m1. rewrite map_size_insert_None by done. lia. }
  assert (Hy2 : h2 !! y = Some (Object (obj_type o) [])).
  { eapply prefix_lookup_Some; [|exact Hh2].
    unfold h1, y. by rewrite list_lookup_middle. }
  exists (VRef y), m2, (<[y := Object (obj_type o) state']> h2).
  split_and!.
  - simpl. rewrite Hml.
    rewrite (bind_Ret _ _ h (obj_type o) h)
      by (unfold py_type; simpl; by rewrite Hho).
    rewrite (bind_Ret _ _ h (obj_attrs o) h)
      by (unfold py_dict; by rewrite Hho).
    rewrite (bind_Ret _ _ h () h) by (unfold lift; by rewrite Hplain).
    rewrite (bind_Ret _ _ h y h1) by done.
    rewrite (bind_Ret _ _ _ _ _ E). simpl.
    unfold mbind, M_bind, py_dict_update. by rewrite Hy2.
  - transitivity m1; [|done]. by apply insert_subseteq.
  - apply prefix_insert_ge; [|done].
    transitivity h1; [|done]. by apply prefix_app_r.
  - pose proof (prefix_length _ _ Hh2) as Hlen2.
    assert (Hml2 : m2 !! l = Some y).
    { eapply lookup_weaken; [|exact Hm2]. apply lookup_insert_eq. }
    split.
    + apply prefix_insert_ge; [apply Hinv2 | unfold y; lia].
    + intros k y' Hk. rewrite length_insert. by apply (inv_range _ _ _ _ Hinv2).
    + apply (inv_inj _ _ _ _ Hinv2).
    + intros y' o' Hy' Hl'. rewrite length_insert.
      destruct (decide (y' = y)) as [->|Hne].
      * rewrite list_lookup_insert_eq in Hl' by lia.
        by injection Hl' as <-.
      * rewrite list_lookup_insert_ne in Hl' by done.
        by eapply (inv_new _ _ _ _ Hinv2).
    + intros k y' Hk Hnp. destruct (decide (k = l)) as [->|Hne].
      * assert (y' = y) as -> by congruence.
        exists o, (Object (obj_type o) state'). split_and!; try done.
        apply list_lookup_insert_eq. lia.
      * destruct (inv_done _ _ _ _ Hinv2 k y' Hk) as (o1 & o1' & ? & ? & ? & ?);
          [by intros [?|?]%elem_of_cons|].
        exists o1, o1'. split_and!; try done.
        rewrite list_lookup_insert_ne; [done|].
        intros <-. apply Hne. by eapply (inv_inj _ _ _ _ Hinv2).
  - exists y. split; [|done].
    eapply lookup_weaken; [|exact Hm2]. apply lookup_insert_eq.
  - simpl. rewrite length_insert. pose proof (prefix_length _ _ Hh2). unfold y. lia.
  - done.
Qed.

Context {env : Environment}.
Hypothesis Hlimit : size R ≤ recursion_limit.

(** A top-level [deepcopy] of a value of the region returns; it leaves
    the original heap in place and returns the image of the value under a
    memo whose every entry has a finished copy. *)
Lemma deepcopy_spec x :
  in_region R x →
  ∃ x' m' h',
    deepcopy x h0 = (Ret x', h') ∧ h0 `prefix_of` h' ∧
    copy_inv h0 [] m' h' ∧ vrel m' x x' ∧
    val_new (length h0) (length h') x' ∧ dom m' ⊆ R.
Proof.
  intros Hx.
  destruct (deepcopy_aux_spec recursion_limit [] x ∅ h0 (copy_inv_init h0) Hx)
    as (x' & m' & h' & E & _ & Hpre & Hinv & Hrel & Hnew & Hdom);
    [by rewrite dom_empty_L | rewrite map_size_empty; lia |].
  exists x', m', h'. split_and!; try done.
  unfold deepcopy. by rewrite (bind_Ret _ _ _ _ _ E).
Qed.

(** Unfoldings of a value and of its copy agree at every depth. *)
Lemma copy_unfold_eq m' h' :
  copy_inv h0 [] m' h' →
  ∀ n v v', in_region R v → vrel m' v v' →
            unfold n h' v' = unfold n h0 v.
Proof.
  intros Hinv n. induction n as [|n IH]; intros v v' Hv Hrel.
  - destruct v; simpl in Hrel; try by subst.
    by destruct Hrel as (y & _ & ->).
  - destruct v as [| | | |l]; simpl in Hrel; try by subst.
    destruct Hrel as (y & Hy & ->).
    destruct (inv_done _ _ _ _ Hinv l y Hy) as (o & o' & Ho & Ho' & Hty & Hat);
      [by intros ?%elem_of_nil|].
    simpl. rewrite Ho, Ho', Hty. f_equal.
    destruct (region_lookup _ _ _ HR Hv) as (o0 & Ho0 & _ & Hok).
    assert (o0 = o) as -> by congruence.
    clear Ho Ho' Hty Ho0. unfold attrs_rel in Hat.
    induction Hat as [|a a' d d' [Hname Hval] Hat IHd]; [done|].
    apply Forall_cons in Hok as [Ha Hd]. simpl.
    rewrite (IH _ _ Ha Hval), Hname. f_equal. by apply IHd.
Qed.

(** Nothing reachable from a new object is an original object. *)
Lemma copy_reachable_new m' h' :
  copy_inv h0 [] m' h' →
  ∀ y k, reachable h' y k → length h0 ≤ y → length h0 ≤ k.
Proof.
  intros Hinv y k Hreach. induction Hreach as [|l o name l' k Hl Hin _ IH];
    [done|].
  intros Hy. apply IH.
  pose proof (inv_new _ _ _ _ Hinv l o Hy Hl) as Hnew.
  rewrite Forall_forall in Hnew. specialize (Hnew _ Hin). simpl in Hnew. lia.
Qed.

Lemma deepcopy_object l :
  l ∈ R → is_deep_copy h0 l (deepcopy (VRef l) h0).
Proof.
  intros Hl.
  destruct (region_lookup _ _ _ HR Hl) as (o & Ho & _ & _).
  pose proof (lookup_lt_Some _ _ _ Ho) as Hlt.
  destruct (deepcopy_spec (VRef l) Hl)
    as (x' & m' & h' & E & Hpre & Hinv & (y & Hy & ->) & Hnew & _).
  simpl in Hnew. exists y, h'. split_and!; try done; try lia.
  - intros k Hk. eapply (copy_reachable_new _ _ Hinv); [exact Hk|lia].
  - intros n. apply (copy_unfold_eq _ _ Hinv); [exact Hl|]. by exists y.
Qed.

End DeepcopyCorrect.

(** ** [transform], path by path *)

Section TransformPaths.

Context {env : Environment}.
Variable ancestors : pytype → list pytype.
Variable g : globals.
Context {B : Type} `{!BufferInterface B}.

Lemma transform_unregistered (self : B) obj target timeout new_type h c :
  type_of h obj = Some c →
  type_map g !! c = None →
  transform ancestors g self obj target timeout new_type h
  = (Raise (TypeException (not_loaded (str_type c))), h).
Proof.
  intros Hty Hmiss. unfold transform.
  rewrite (bind_Ret _ _ _ _ _ (py_type_Some _ _ _ Hty)).
  apply bind_Raise. unfold lift, TransformRegistration.get. by rewrite Hmiss.
Qed.

Lemma transform_registered (self : B) obj target timeout new_type h c f
    hdr frame_id stamp :
  type_of h obj = Some c →
  type_map g !! c = Some f →
  py_getattr obj "header" h = (Ret hdr, h) →
  py_getattr hdr "frame_id" h = (Ret frame_id, h) →
  py_getattr hdr "stamp" h = (Ret stamp, h) →
  transform ancestors g self obj target timeout new_type h
  = (tf ← lookup_transform self target frame_id stamp timeout;
     res ← f obj tf;
     match new_type with
     | None => mret res
     | Some T => convert ancestors g res T
     end) h.
Proof.
  intros Hty Hf Hhdr Hfid Hstamp. unfold transform.
  rewrite (bind_Ret _ _ _ _ _ (py_type_Some _ _ _ Hty)).
  rewrite (bind_Ret _ _ h f h)
    by (unfold lift, TransformRegistration.get; by rewrite Hf).
  rewrite (bind_Ret _ _ _ _ _ Hhdr), (bind_Ret _ _ _ _ _ Hfid).
  by rewrite (bind_Ret _ _ _ _ _ Hhdr), (bind_Ret _ _ _ _ _ Hstamp).
Qed.

End TransformPaths.

(** ** [Stamped] *)

Section StampedPaths.

Context {env : Environment}.

Lemma Stamped_eq h h1 l o stamp frame_id hdr :
  Header frame_id stamp h = (Ret hdr, h1) →
  h1 !! l = Some o →
  accepts (obj_type o) "header" = true →
  Stamped (VRef l) stamp frame_id h
  = (Ret (VRef l),
     <[l := Object (obj_type o) (attr_set "header" hdr (obj_attrs o))]> h1).
Proof.
  intros Hhdr Hl Hacc. unfold Stamped.
  rewrite (bind_Ret _ _ _ _ _ Hhdr).
  unfold mbind, M_bind, py_setattr, mret, M_ret. by rewrite Hl, Hacc.
Qed.

Lemma Stamped_refused h h1 l o stamp frame_id hdr :
  Header frame_id stamp h = (Ret hdr, h1) →
  h1 !! l = Some o →
  accepts (obj_type o) "header" = false →
  Stamped (VRef l) stamp frame_id h = (Raise (AttributeError "header"), h1).
Proof.
  intros Hhdr Hl Hacc. unfold Stamped.
  rewrite (bind_Ret _ _ _ _ _ Hhdr).
  unfold mbind, M_bind, py_setattr. by rewrite Hl, Hacc.
Qed.

Lemma Stamped_Header_raises h h1 obj stamp frame_id e :
  Header frame_id stamp h = (Raise e, h1) →
  Stamped obj stamp frame_id h = (Raise e, h1).
Proof. intros Hhdr. unfold Stamped. by apply bind_Raise. Qed.

Lemma Stamped_atom h h1 obj stamp frame_id hdr :
  (∀ l, obj ≠ VRef l) →
  Header frame_id stamp h = (Ret hdr, h1) →
  Stamped obj stamp frame_id h = (Raise (AttributeError "header"), h1).
Proof.
  intros Hatom Hhdr. unfold Stamped.
  rewrite (bind_Ret _ _ _ _ _ Hhdr).
  destruct obj as [| | | |l]; try done. by destruct (Hatom l).
Qed.

End StampedPaths.

(** What the header constructor of the scenario does. *)
Lemma make_header_eq frame_id stamp h :
  Header (Environment := Scenario.env) frame_id stamp h
  = (Ret (VRef (length h)),
     h ++ [Object "std_msgs.msg.Header"
             [("stamp", stamp); ("frame_id", frame_id)]]).
Proof. done. Qed.

(** ** The text of the lookup error *)

Lemma string_app_assoc (s1 s2 s3 : string) :
  (s1 +:+ s2) +:+ s3 = s1 +:+ (s2 +:+ s3).
Proof.
  induction s1 as [|a s1 IH]; [done|].
  change (String a ((s1 +:+ s2) +:+ s3) = String a (s1 +:+ (s2 +:+ s3))).
  by rewrite IH.
Qed.

Lemma not_loaded_type key :
  not_loaded (str_type key)
  = "Type <class '" +:+ key +:+ "'> is not loaded or supported".
Proof.
  unfold not_loaded, str_type. by rewrite !string_app_assoc.
Qed.

Lemma not_loaded_pair a b :
  not_loaded (str_pair (a, b))
  = "Type (<class '" +:+ a +:+ "'>, <class '" +:+ b
      +:+ "'>) is not loaded or supported".
Proof.
  unfold not_loaded, str_pair, str_type. simpl fst. simpl snd.
  by rewrite !string_app_assoc.
Qed.

(** * The claims *)

(** C5: each of the four getters, asked for a key that its table does not
    hold, raises [TypeException] whose text spells out that key; no
    callback and no default is returned. The lookup is by the exact key:
    an entry under any other key, be it a subclass or a superclass of the
    one asked for, does not answer it. *)
Theorem getters_raise_on_absent_key (g : globals)
    (s : TransformRegistration.t) (c : ConvertRegistration.t)
    (key : pytype) (a b : pytype) :
  (type_map g !! key = None →
   TransformRegistration.get s key g
   = Raise (TypeException
       ("Type <class '" +:+ key +:+ "'> is not loaded or supported"))) ∧
  (to_msg_map g !! key = None →
   ConvertRegistration.get_to_msg c key g
   = Raise (TypeException
       ("Type <class '" +:+ key +:+ "'> is not loaded or supported"))) ∧
  (from_msg_map g !! key = None →
   ConvertRegistration.get_from_msg c key g
   = Raise (TypeException
       ("Type <class '" +:+ key +:+ "'> is not loaded or supported"))) ∧
  (convert_map g !! (a, b) = None →
   ConvertRegistration.get_convert c (a, b) g
   = Raise (TypeException
       ("Type (<class '" +:+ a +:+ "'>, <class '" +:+ b
          +:+ "'>) is not loaded or supported"))) ∧
  (∀ other f, other ≠ key → type_map g !! key = None →
   ∃ msg, TransformRegistration.get s key
            (TransformRegistration.add s other f g).2
          = Raise (TypeException msg)) ∧
  (∀ other f, other ≠ key → to_msg_map g !! key = None →
   ∃ msg, ConvertRegistration.get_to_msg c key
            (ConvertRegistration.add_to_msg c other f g).2
          = Raise (TypeException msg)) ∧
  (∀ other f, other ≠ key → from_msg_map g !! key = None →
   ∃ msg, ConvertRegistration.get_from_msg c key
            (ConvertRegistration.add_from_msg c other f g).2
          = Raise (TypeException msg)) ∧
  (∀ other f, other ≠ (a, b) → convert_map g !! (a, b) = None →
   ∃ msg, ConvertRegistration.get_convert c (a, b)
            (ConvertRegistration.add_convert c other f g).2
          = Raise (TypeException msg)).
Proof.
  split_and!.
  - intros H. unfold TransformRegistration.get.
    by rewrite H, not_loaded_type.
  - intros H. unfold ConvertRegistration.get_to_msg.
    by rewrite H, not_loaded_type.
  - intros H. unfold ConvertRegistration.get_from_msg.
    by rewrite H, not_loaded_type.
  - intros H. unfold ConvertRegistration.get_convert.
    by rewrite H, not_loaded_pair.
  - intros other f Hne H. eexists. unfold TransformRegistration.get. simpl.
    by rewrite lookup_insert_ne, H.
  - intros other f Hne H. eexists. unfold ConvertRegistration.get_to_msg.
    simpl. by rewrite lookup_insert_ne, H.
  - intros other f Hne H. eexists. unfold ConvertRegistration.get_from_msg.
    simpl. by rewrite lookup_insert_ne, H.
  - intros other f Hne H. eexists. unfold ConvertRegistration.get_convert.
    simpl. by rewrite lookup_insert_ne, H.
Qed.

Lemma getters_raise_on_absent_key_witness :
  type_map Scenario.g !! "PointStamped" = None ∧
  "PointStamped" ∈ Scenario.ancestors "MyPoint" ∧
  is_Some (type_map Scenario.g !! "MyPoint") ∧
  TransformRegistration.get (TransformRegistration.new 0) "PointStamped"
    Scenario.g
  = Raise (TypeException
             "Type <class 'PointStamped'> is not loaded or supported") ∧
  ConvertRegistration.get_to_msg (ConvertRegistration.new 0) "PointStamped"
    Scenario.g
  = Raise (TypeException
             "Type <class 'PointStamped'> is not loaded or supported") ∧
  ConvertRegistration.get_from_msg (ConvertRegistration.new 0) "PointStamped"
    Scenario.g
  = Raise (TypeException
             "Type <class 'PointStamped'> is not loaded or supported") ∧
  ConvertRegistration.get_convert (ConvertRegistration.new 0)
    ("MyPoint", "Vector") Scenario.g
  = Raise (TypeException
      "Type (<class 'MyPoint'>, <class 'Vector'>) is not loaded or supported").
Proof.
  destruct (getters_raise_on_absent_key Scenario.g
              (TransformRegistration.new 0) (ConvertRegistration.new 0)
              "PointStamped" "MyPoint" "Vector")
    as (H1 & H2 & H3 & H4 & _).
  split_and!.
  - by vm_compute.
  - by vm_compute; left.
  - by vm_compute; eexists.
  - apply H1. by vm_compute.
  - apply H2. by vm_compute.
  - apply H3. by vm_compute.
  - apply H4. by vm_compute.
Defined.

(** C6: a registration always succeeds; of two registrations under one
    key the getter answers with the second; and a key, once registered,
    is found by its getter after any further registrations in any of the
    tables, since no operation removes an entry. *)
Theorem registration_is_additive_last_write_wins (g : globals) :
  (∀ r, (register r g).1 = Ret ()) ∧
  (∀ s1 s2 s3 key f1 f2,
     TransformRegistration.get s3 key
       (TransformRegistration.add s2 key f2
          (TransformRegistration.add s1 key f1 g).2).2 = Ret f2) ∧
  (∀ s1 s2 s3 key f1 f2,
     ConvertRegistration.get_to_msg s3 key
       (ConvertRegistration.add_to_msg s2 key f2
          (ConvertRegistration.add_to_msg s1 key f1 g).2).2 = Ret f2) ∧
  (∀ s1 s2 s3 key f1 f2,
     ConvertRegistration.get_from_msg s3 key
       (ConvertRegistration.add_from_msg s2 key f2
          (ConvertRegistration.add_from_msg s1 key f1 g).2).2 = Ret f2) ∧
  (∀ s1 s2 s3 key f1 f2,
     ConvertRegistration.get_convert s3 key
       (ConvertRegistration.add_convert s2 key f2
          (ConvertRegistration.add_convert s1 key f1 g).2).2 = Ret f2) ∧
  (∀ rs s1 s2 key f,
     ∃ f', TransformRegistration.get s2 key
             (register_all rs (TransformRegistration.add s1 key f g).2)
           = Ret f') ∧
  (∀ rs s1 s2 key f,
     ∃ f', ConvertRegistration.get_to_msg s2 key
             (register_all rs (ConvertRegistration.add_to_msg s1 key f g).2)
           = Ret f') ∧
  (∀ rs s1 s2 key f,
     ∃ f', ConvertRegistration.get_from_msg s2 key
             (register_all rs (ConvertRegistration.add_from_msg s1 key f g).2)
           = Ret f') ∧
  (∀ rs s1 s2 key f,
     ∃ f', ConvertRegistration.get_convert s2 key
             (register_all rs (ConvertRegistration.add_convert s1 key f g).2)
           = Ret f').
Proof.
  split_and!.
  - intros r. apply register_ok.
  - intros. unfold TransformRegistration.get. simpl.
    by rewrite lookup_insert_eq.
  - intros. unfold ConvertRegistration.get_to_msg. simpl.
    by rewrite lookup_insert_eq.
  - intros. unfold ConvertRegistration.get_from_msg. simpl.
    by rewrite lookup_insert_eq.
  - intros. unfold ConvertRegistration.get_convert. simpl.
    by rewrite lookup_insert_eq.
  - intros rs s1 s2 key f.
    destruct (register_all_keeps rs (TransformRegistration.add s1 key f g).2)
      as (H & _).
    destruct (H key) as [f' Hf']; [simpl; rewrite lookup_insert_eq; eauto|].
    exists f'. unfold TransformRegistration.get. by rewrite Hf'.
  - intros rs s1 s2 key f.
    destruct (register_all_keeps rs (ConvertRegistration.add_to_msg s1 key f g).2)
      as (_ & _ & H & _).
    destruct (H key) as [f' Hf']; [simpl; rewrite lookup_insert_eq; eauto|].
    exists f'. unfold ConvertRegistration.get_to_msg. by rewrite Hf'.
  - intros rs s1 s2 key f.
    destruct (register_all_keeps rs (ConvertRegistration.add_from_msg s1 key f g).2)
      as (_ & H & _).
    destruct (H key) as [f' Hf']; [simpl; rewrite lookup_insert_eq; eauto|].
    exists f'. unfold ConvertRegistration.get_from_msg. by rewrite Hf'.
  - intros rs s1 s2 key f.
    destruct (register_all_keeps rs (ConvertRegistration.add_convert s1 key f g).2)
      as (_ & _ & _ & H).
    destruct (H key) as [f' Hf']; [simpl; rewrite lookup_insert_eq; eauto|].
    exists f'. unfold ConvertRegistration.get_convert. by rewrite Hf'.
Qed.

(** C7: the tables belong to the classes, not to the instances: what is
    registered through one instance is returned by the getter of any
    other instance, is used by [convert], which makes an instance of its
    own, and is used by [transform] through whatever instance the buffer
    holds. *)
Theorem registries_are_process_wide {env : Environment}
    (ancestors : pytype → list pytype)
    (g : globals) :
  (∀ s1 s2 key f,
     TransformRegistration.get s2 key (TransformRegistration.add s1 key f g).2
     = Ret f) ∧
  (∀ c1 c2 key f,
     ConvertRegistration.get_to_msg c2 key
       (ConvertRegistration.add_to_msg c1 key f g).2 = Ret f) ∧
  (∀ c1 c2 key f,
     ConvertRegistration.get_from_msg c2 key
       (ConvertRegistration.add_from_msg c1 key f g).2 = Ret f) ∧
  (∀ c1 c2 key f,
     ConvertRegistration.get_convert c2 key
       (ConvertRegistration.add_convert c1 key f g).2 = Ret f) ∧
  (∀ c1 a T ta f h r h',
     type_of h a = Some ta →
     f a h = (Ret r, h') →
     convert ancestors (ConvertRegistration.add_convert c1 (ta, T) f g).2 a T h
     = (Ret r, h')) ∧
  (∀ c1 c2 a T ta f_to f_from h,
     type_of h a = Some ta →
     convert_map g !! (ta, T) = None →
     issubclass ancestors ta T = false →
     convert ancestors
       (ConvertRegistration.add_from_msg c2 T f_from
          (ConvertRegistration.add_to_msg c1 ta f_to g).2).2 a T h
     = (msg ← f_to a; f_from msg) h) ∧
  (∀ (B : Type) (I : BufferInterface B) (self : B) s1 obj target timeout ty f
     h hdr frame_id stamp,
     type_of h obj = Some ty →
     py_getattr obj "header" h = (Ret hdr, h) →
     py_getattr hdr "frame_id" h = (Ret frame_id, h) →
     py_getattr hdr "stamp" h = (Ret stamp, h) →
     transform ancestors (TransformRegistration.add s1 ty f g).2 self obj
       target timeout None h
     = (tf ← lookup_transform self target frame_id stamp timeout; f obj tf) h).
Proof.
  split_and!.
  - intros. unfold TransformRegistration.get. simpl.
    by rewrite lookup_insert_eq.
  - intros. unfold ConvertRegistration.get_to_msg. simpl.
    by rewrite lookup_insert_eq.
  - intros. unfold ConvertRegistration.get_from_msg. simpl.
    by rewrite lookup_insert_eq.
  - intros. unfold ConvertRegistration.get_convert. simpl.
    by rewrite lookup_insert_eq.
  - intros c1 a T ta f h r h' Hty Hf.
    eapply convert_direct_no_TypeException; [exact Hty| |exact Hf|done].
    simpl. apply lookup_insert_eq.
  - intros c1 c2 a T ta f_to f_from h Hty Hmiss Hsub.
    rewrite (convert_miss_eq _ _ _ _ _ _ Hty) by done.
    rewrite (fallback_bridge _ _ _ _ _ _ _ Hty Hsub).
    unfold lift, ConvertRegistration.get_to_msg,
      ConvertRegistration.get_from_msg, mbind, M_bind. simpl.
    by rewrite !lookup_insert_eq.
  - intros B I self s1 obj target timeout ty f h hdr frame_id stamp
      Hty Hhdr Hfid Hstamp.
    rewrite (transform_registered _ _ _ _ _ _ None _ _ f _ _ _ Hty)
      by (done || simpl; apply lookup_insert_eq).
    unfold mbind, M_bind.
    destruct (lookup_transform self target frame_id stamp timeout h)
      as [[tf|e] h1]; [|done].
    by destruct (f obj tf h1) as [[res|e] h2].
Qed.

Lemma registries_are_process_wide_witness :
  type_of Scenario.h Scenario.p = Some "MyPoint" ∧
  Scenario.sentinel "late" Scenario.p Scenario.h
  = (Ret (VStr "late"), Scenario.h) ∧
  convert (env := Scenario.env) Scenario.ancestors
    (ConvertRegistration.add_convert (ConvertRegistration.new 9)
       ("MyPoint", "Vector") (Scenario.sentinel "late") Scenario.g).2
    Scenario.p "Vector" Scenario.h
  = (Ret (VStr "late"), Scenario.h).
Proof.
  destruct (registries_are_process_wide (env := Scenario.env) Scenario.ancestors Scenario.g)
    as (_ & _ & _ & _ & H & _).
  split_and!; [reflexivity | reflexivity |].
  apply (H (ConvertRegistration.new 9) Scenario.p "Vector" "MyPoint"
           (Scenario.sentinel "late") Scenario.h); reflexivity.
Defined.

(** C1: [transform] first asks the registry for the function of the
    object's class. If there is none, the call raises the lookup error and
    nothing else has happened, whatever buffer is plugged in. If there is
    one, the call is the buffer's [lookup_transform] on the target frame,
    the frame and stamp of the object's header and the timeout, followed
    by the registered function on the object and that transform; the
    result is returned as it is without [new_type] and handed to [convert]
    with it. *)
Theorem transform_dispatch {env : Environment}
    (ancestors : pytype → list pytype) (g : globals)
    (B : Type) (I : BufferInterface B) (self : B)
    (obj target timeout : value) (new_type : option pytype)
    (h : heap) (c : pytype) :
  type_of h obj = Some c →
  (type_map g !! c = None →
   transform ancestors g self obj target timeout new_type h
   = (Raise (TypeException (not_loaded (str_type c))), h)) ∧
  (∀ f hdr frame_id stamp,
     type_map g !! c = Some f →
     py_getattr obj "header" h = (Ret hdr, h) →
     py_getattr hdr "frame_id" h = (Ret frame_id, h) →
     py_getattr hdr "stamp" h = (Ret stamp, h) →
     transform ancestors g self obj target timeout new_type h
     = (tf ← lookup_transform self target frame_id stamp timeout;
        res ← f obj tf;
        match new_type with
        | None => mret res
        | Some T => convert ancestors g res T
        end) h).
Proof.
  intros Hty. split.
  - intros Hmiss. by apply transform_unregistered.
  - intros f hdr frame_id stamp Hf Hhdr Hfid Hstamp.
    by eapply transform_registered.
Qed.

Lemma transform_dispatch_witness :
  transform (env := Scenario.env) Scenario.ancestors globals_init Scenario.buffer Scenario.p
    (VStr "base") VNone None Scenario.h
  = (Raise (TypeException (not_loaded (str_type "MyPoint"))), Scenario.h) ∧
  transform (env := Scenario.env) Scenario.ancestors Scenario.g Scenario.buffer Scenario.p
    (VStr "base") VNone (Some "Frame") Scenario.h
  = (tf ← lookup_transform Scenario.buffer (VStr "base") (VStr "laser")
            (VRef 0) VNone;
     res ← Scenario.do_transform_point Scenario.p tf;
     convert (env := Scenario.env) Scenario.ancestors Scenario.g res "Frame") Scenario.h.
Proof.
  split.
  - destruct (transform_dispatch (env := Scenario.env) Scenario.ancestors globals_init _ _
                Scenario.buffer Scenario.p (VStr "base") VNone None
                Scenario.h "MyPoint" eq_refl) as [H _].
    apply H. reflexivity.
  - destruct (transform_dispatch (env := Scenario.env) Scenario.ancestors Scenario.g _ _
                Scenario.buffer Scenario.p (VStr "base") VNone (Some "Frame")
                Scenario.h "MyPoint" eq_refl) as [_ H].
    apply (H Scenario.do_transform_point (VRef 1)); reflexivity.
Defined.

(** C3: with no direct entry for the pair and a source that is not an
    instance of the target type, [convert] goes through the message form:
    with both registrations it is [from_msg] applied to the result of
    [to_msg]; without the [to_msg] entry of the source's class, or without
    the [from_msg] entry of the target type, it raises the lookup error
    and no converter has run. *)
Theorem convert_bridge {env : Environment}
    (ancestors : pytype → list pytype) (g : globals)
    (a : value) (T : pytype) (h : heap) (c : pytype) :
  type_of h a = Some c →
  convert_map g !! (c, T) = None →
  issubclass ancestors c T = false →
  (∀ f_to f_from,
     to_msg_map g !! c = Some f_to →
     from_msg_map g !! T = Some f_from →
     convert ancestors g a T h = (msg ← f_to a; f_from msg) h) ∧
  (to_msg_map g !! c = None →
   convert ancestors g a T h
   = (Raise (TypeException (not_loaded (str_type c))), h)) ∧
  (∀ f_to,
     to_msg_map g !! c = Some f_to →
     from_msg_map g !! T = None →
     convert ancestors g a T h
     = (Raise (TypeException (not_loaded (str_type T))), h)).
Proof.
  intros Hty Hmiss Hsub.
  rewrite (convert_miss_eq _ _ _ _ _ _ Hty Hmiss).
  rewrite (fallback_bridge _ _ _ _ _ _ _ Hty Hsub).
  unfold lift, ConvertRegistration.get_to_msg,
    ConvertRegistration.get_from_msg, mbind, M_bind.
  split_and!.
  - intros f_to f_from -> ->. done.
  - intros ->. done.
  - intros f_to -> ->. done.
Qed.

Lemma convert_bridge_witness :
  convert (env := Scenario.env) Scenario.ancestors Scenario.g Scenario.p "Vector" Scenario.h
  = (Ret (VStr "bridge"), Scenario.h) ∧
  convert (env := Scenario.env) Scenario.ancestors Scenario.g (VInt 3) "Vector" Scenario.h
  = (Raise (TypeException (not_loaded (str_type "int"))), Scenario.h) ∧
  convert (env := Scenario.env) Scenario.ancestors Scenario.g Scenario.p "Pose" Scenario.h
  = (Raise (TypeException (not_loaded (str_type "Pose"))), Scenario.h).
Proof.
  split_and!.
  - destruct (convert_bridge (env := Scenario.env) Scenario.ancestors Scenario.g Scenario.p
                "Vector" Scenario.h "MyPoint" eq_refl eq_refl eq_refl)
      as (H & _).
    apply (H (Scenario.sentinel "to_msg") (Scenario.sentinel "bridge"));
      reflexivity.
  - destruct (convert_bridge (env := Scenario.env) Scenario.ancestors Scenario.g (VInt 3)
                "Vector" Scenario.h "int" eq_refl eq_refl eq_refl)
      as (_ & H & _).
    apply H. reflexivity.
  - destruct (convert_bridge (env := Scenario.env) Scenario.ancestors Scenario.g Scenario.p
                "Pose" Scenario.h "MyPoint" eq_refl eq_refl eq_refl)
      as (_ & _ & H).
    apply (H (Scenario.sentinel "to_msg")); reflexivity.
Defined.

(** C9: when the registered direct converter itself raises
    [TypeException], [convert] does not let that exception out. It runs
    the [except] clause from the heap the converter left behind: the deep
    copy if the source is an instance of the target type, the bridge
    through the message form otherwise; and if the bridge is not
    registered, the exception raised is the one of that lookup, not the
    converter's. *)
Theorem convert_catches_converter_TypeException
    {env : Environment} (ancestors : pytype → list pytype) (g : globals)
    (a : value) (T : pytype) (h h1 : heap) (c c1 : pytype)
    (f : convert_callback) (s : string) :
  type_of h a = Some c →
  convert_map g !! (c, T) = Some f →
  f a h = (Raise (TypeException s), h1) →
  type_of h1 a = Some c1 →
  convert ancestors g a T h
  = convert_fallback ancestors g (ConvertRegistration.new 0) a T h1 ∧
  (issubclass ancestors c1 T = true →
   convert ancestors g a T h = deepcopy a h1) ∧
  (∀ f_to f_from,
     issubclass ancestors c1 T = false →
     to_msg_map g !! c1 = Some f_to →
     from_msg_map g !! T = Some f_from →
     convert ancestors g a T h = (msg ← f_to a; f_from msg) h1) ∧
  (issubclass ancestors c1 T = false →
   to_msg_map g !! c1 = None →
   convert ancestors g a T h
   = (Raise (TypeException (not_loaded (str_type c1))), h1)).
Proof.
  intros Hty Hf Hraise Hty1.
  rewrite (convert_direct_eq _ _ _ _ _ _ _ Hty Hf).
  unfold try_except_TypeException. rewrite Hraise. split_and!.
  - done.
  - intros Hsub. by eapply fallback_isinstance.
  - intros f_to f_from Hsub Hto Hfrom.
    rewrite (fallback_bridge _ _ _ _ _ _ _ Hty1 Hsub).
    unfold lift, ConvertRegistration.get_to_msg,
      ConvertRegistration.get_from_msg, mbind, M_bind.
    by rewrite Hto, Hfrom.
  - intros Hsub Hto.
    rewrite (fallback_bridge _ _ _ _ _ _ _ Hty1 Hsub).
    unfold lift, ConvertRegistration.get_to_msg, mbind, M_bind.
    by rewrite Hto.
Qed.

Lemma convert_catches_converter_TypeException_witness :
  Scenario.failing Scenario.p Scenario.h
  = (Raise (TypeException "inner"), Scenario.h) ∧
  convert (env := Scenario.env) Scenario.ancestors Scenario.g_failing Scenario.p "Vector" Scenario.h
  = (Ret (VStr "bridge"), Scenario.h).
Proof.
  split; [reflexivity|].
  destruct (convert_catches_converter_TypeException (env := Scenario.env) Scenario.ancestors
              Scenario.g_failing Scenario.p "Vector" Scenario.h Scenario.h
              "MyPoint" "MyPoint" Scenario.failing "inner"
              eq_refl eq_refl eq_refl eq_refl) as (_ & _ & H & _).
  apply (H (Scenario.sentinel "to_msg") (Scenario.sentinel "bridge"));
    reflexivity.
Defined.

(** On an atom [deepcopy] makes nothing: the atom itself comes back. *)
Lemma deepcopy_atom {env : Environment} a h :
  (∀ l, a ≠ VRef l) → deepcopy a h = (Ret a, h).
Proof.
  intros Ha. unfold deepcopy.
  destruct a as [| | | |l]; [..|by destruct (Ha l)];
    by destruct recursion_limit.
Qed.

(** The two ways in which [deepcopy] gives up on an instance: nesting
    deeper than the interpreter allows, and an attribute of the instance
    in the place of a method of the copy protocol. *)
Example deepcopy_beyond_the_limit :
  (deepcopy (env := Build_Environment 2 (λ _ _, true) Scenario.make_header)
     Scenario.p Scenario.h).1 = Raise RecursionError.
Proof. by vm_compute. Qed.

Example deepcopy_of_shadowed_protocol :
  deepcopy (env := Scenario.env) (VRef 0)
    [Object "Node" [("__deepcopy__", VInt 3)]]
  = (Raise TypeError, [Object "Node" [("__deepcopy__", VInt 3)]]).
Proof. by vm_compute. Qed.






(** C8, as the code has it: [Stamped] has a header made by the [Header]
    constructor from the given frame and stamp, stores it in the [header]
    attribute of the object it was given, and returns that very object.
    - An exception of the constructor comes out as it is.
    - For an instance of a class that takes a [header] attribute the call
      returns the instance; its header is what the constructor returned,
      it keeps its class and its other attributes, and the assignment
      changes no other object and creates none.
    - For an instance of a class that does not take a [header] attribute,
      and for an atom, the assignment raises [AttributeError].
    [Stamped] checks nothing itself. *)
Theorem Stamped_sets_header_in_place {env : Environment} (h h1 : heap)
    (obj stamp frame_id : value) :
  (∀ e, Header frame_id stamp h = (Raise e, h1) →
        Stamped obj stamp frame_id h = (Raise e, h1)) ∧
  (∀ hdr l o,
     Header frame_id stamp h = (Ret hdr, h1) →
     obj = VRef l →
     h1 !! l = Some o →
     accepts (obj_type o) "header" = true →
     ∃ h' o',
       Stamped obj stamp frame_id h = (Ret obj, h') ∧
       h' !! l = Some o' ∧
       obj_type o' = obj_type o ∧
       attr_get "header" (obj_attrs o') = Some hdr ∧
       (∀ name, name ≠ "header" →
          attr_get name (obj_attrs o') = attr_get name (obj_attrs o)) ∧
       (∀ k, k ≠ l → h' !! k = h1 !! k) ∧
       length h' = length h1) ∧
  (∀ hdr l o,
     Header frame_id stamp h = (Ret hdr, h1) →
     obj = VRef l →
     h1 !! l = Some o →
     accepts (obj_type o) "header" = false →
     Stamped obj stamp frame_id h = (Raise (AttributeError "header"), h1)) ∧
  (∀ hdr,
     Header frame_id stamp h = (Ret hdr, h1) →
     (∀ l, obj ≠ VRef l) →
     Stamped obj stamp frame_id h = (Raise (AttributeError "header"), h1)).
Proof.
  split_and!.
  - intros e He. by apply Stamped_Header_raises.
  - intros hdr l o Hhdr -> Hl Hacc.
    pose proof (lookup_lt_Some _ _ _ Hl) as Hlt.
    eexists _, _. split; [by eapply Stamped_eq|]. split_and!.
    + by apply list_lookup_insert_eq.
    + done.
    + apply attr_get_set_eq.
    + intros name Hne. simpl. by apply attr_get_set_ne.
    + intros k Hne. by rewrite list_lookup_insert_ne.
    + by rewrite length_insert.
  - intros hdr l o Hhdr -> Hl Hacc. by eapply Stamped_refused.
  - intros hdr Hhdr Hatom. by eapply Stamped_atom.
Qed.

Lemma Stamped_sets_header_in_place_witness :
  (∃ h' o',
     Stamped (env := Scenario.env) Scenario.p (VRef 0) (VStr "base")
       Scenario.h
     = (Ret Scenario.p, h') ∧
     h' !! 2 = Some o' ∧
     obj_type o' = "MyPoint" ∧
     attr_get "header" (obj_attrs o') = Some (VRef 3) ∧
     (∀ name, name ≠ "header" →
        attr_get name (obj_attrs o')
        = attr_get name [("header", VRef 1); ("x", VInt 7)]) ∧
     (∀ k, k ≠ 2 →
        h' !! k
        = (Scenario.h ++
             [Object "std_msgs.msg.Header"
                [("stamp", VRef 0); ("frame_id", VStr "base")]]) !! k) ∧
     length h' = 4) ∧
  Stamped (env := Scenario.env) (VRef 0) (VRef 0) (VStr "base") Scenario.h
  = (Raise (AttributeError "header"),
     Scenario.h ++
       [Object "std_msgs.msg.Header"
          [("stamp", VRef 0); ("frame_id", VStr "base")]]).
Proof.
  destruct (Stamped_sets_header_in_place (env := Scenario.env) Scenario.h
              (Scenario.h ++
                 [Object "std_msgs.msg.Header"
                    [("stamp", VRef 0); ("frame_id", VStr "base")]])
              Scenario.p (VRef 0) (VStr "base")) as (_ & H & _).
  destruct (Stamped_sets_header_in_place (env := Scenario.env) Scenario.h
              (Scenario.h ++
                 [Object "std_msgs.msg.Header"
                    [("stamp", VRef 0); ("frame_id", VStr "base")]])
              (VRef 0) (VRef 0) (VStr "base")) as (_ & _ & H' & _).
  split.
  - exact (H (VRef 3) 2
             (Object "MyPoint" [("header", VRef 1); ("x", VInt 7)])
             eq_refl eq_refl eq_refl eq_refl).
  - exact (H' (VRef 3) 0 (Object "Time" [("sec", VInt 5)])
              eq_refl eq_refl eq_refl eq_refl).
Defined.

(** C8, as the claim has it, fails: the argument is not left as it was.
    The point of the scenario has the header [VRef 1] before the call and
    the new header [VRef 3] after it. *)
Lemma Stamped_mutates_its_argument :
  Scenario.h !! 2
  = Some (Object "MyPoint" [("header", VRef 1); ("x", VInt 7)]) ∧
  (Stamped (env := Scenario.env) Scenario.p (VRef 0) (VStr "base")
     Scenario.h).2 !! 2
  = Some (Object "MyPoint" [("header", VRef 3); ("x", VInt 7)]) ∧
  ¬ (∀ (env : Environment) h l o stamp frame_id,
       h !! l = Some o →
       (Stamped (VRef l) stamp frame_id h).2 !! l = Some o).
Proof.
  split_and!; [reflexivity | reflexivity |].
  intros H.
  specialize (H Scenario.env Scenario.h 2 _ (VRef 0) (VStr "base") eq_refl).
  vm_compute in H. discriminate H.
Qed.

(** C2 at the input where the code departs from it: a direct converter is
    registered for the pair and raises [TypeException] when applied; the
    bridge is registered as well. [convert] answers with the result of
    the bridge. *)
Theorem convert_direct_entry_overridden_by_bridge :
  ConvertRegistration.get_convert (ConvertRegistration.new 0)
    ("MyPoint", "Vector") Scenario.g_failing = Ret Scenario.failing ∧
  Scenario.failing Scenario.p Scenario.h
  = (Raise (TypeException "inner"), Scenario.h) ∧
  (f_to ← lift (ConvertRegistration.get_to_msg (ConvertRegistration.new 0)
                  "MyPoint" Scenario.g_failing);
   f_from ← lift (ConvertRegistration.get_from_msg (ConvertRegistration.new 0)
                    "Vector" Scenario.g_failing);
   msg ← f_to Scenario.p;
   f_from msg) Scenario.h
  = (Ret (VStr "bridge"), Scenario.h) ∧
  convert (env := Scenario.env) Scenario.ancestors Scenario.g_failing Scenario.p "Vector" Scenario.h
  = (Ret (VStr "bridge"), Scenario.h).
Proof. split_and!; by vm_compute. Qed.

(** * Further properties of the facade *)

Section FacadePaths.

Context {env : Environment}.
Variable ancestors : pytype → list pytype.
Variable g : globals.
Context {B : Type} `{!BufferInterface B}.

Lemma transform_full_unregistered (self : B) obj target target_time fixed
    timeout new_type h c :
  type_of h obj = Some c →
  type_map g !! c = None →
  transform_full ancestors g self obj target target_time fixed timeout
    new_type h
  = (Raise (TypeException (not_loaded (str_type c))), h).
Proof.
  intros Hty Hmiss. unfold transform_full.
  rewrite (bind_Ret _ _ _ _ _ (py_type_Some _ _ _ Hty)).
  apply bind_Raise. unfold lift, TransformRegistration.get. by rewrite Hmiss.
Qed.

Lemma transform_full_registered (self : B) obj target target_time fixed
    timeout new_type h c f hdr frame_id stamp :
  type_of h obj = Some c →
  type_map g !! c = Some f →
  py_getattr obj "header" h = (Ret hdr, h) →
  py_getattr hdr "frame_id" h = (Ret frame_id, h) →
  py_getattr hdr "stamp" h = (Ret stamp, h) →
  transform_full ancestors g self obj target target_time fixed timeout
    new_type h
  = (tf ← lookup_transform_full self target target_time frame_id stamp
            fixed timeout;
     res ← f obj tf;
     match new_type with
     | None => mret res
     | Some T => convert ancestors g res T
     end) h.
Proof.
  intros Hty Hf Hhdr Hfid Hstamp. unfold transform_full.
  rewrite (bind_Ret _ _ _ _ _ (py_type_Some _ _ _ Hty)).
  rewrite (bind_Ret _ _ h f h)
    by (unfold lift, TransformRegistration.get; by rewrite Hf).
  rewrite (bind_Ret _ _ _ _ _ Hhdr), (bind_Ret _ _ _ _ _ Hfid).
  by rewrite (bind_Ret _ _ _ _ _ Hhdr), (bind_Ret _ _ _ _ _ Hstamp).
Qed.

(** Reading the header of an object that has none. *)
Lemma transform_header_error (self : B) obj target timeout new_type h c f e :
  type_of h obj = Some c →
  type_map g !! c = Some f →
  py_getattr obj "header" h = (Raise e, h) →
  transform ancestors g self obj target timeout new_type h = (Raise e, h).
Proof.
  intros Hty Hf Hhdr. unfold transform.
  rewrite (bind_Ret _ _ _ _ _ (py_type_Some _ _ _ Hty)).
  rewrite (bind_Ret _ _ h f h)
    by (unfold lift, TransformRegistration.get; by rewrite Hf).
  by apply bind_Raise.
Qed.

Lemma transform_full_header_error (self : B) obj target target_time fixed
    timeout new_type h c f e :
  type_of h obj = Some c →
  type_map g !! c = Some f →
  py_getattr obj "header" h = (Raise e, h) →
  transform_full ancestors g self obj target target_time fixed timeout
    new_type h = (Raise e, h).
Proof.
  intros Hty Hf Hhdr. unfold transform_full.
  rewrite (bind_Ret _ _ _ _ _ (py_type_Some _ _ _ Hty)).
  rewrite (bind_Ret _ _ h f h)
    by (unfold lift, TransformRegistration.get; by rewrite Hf).
  by apply bind_Raise.
Qed.

End FacadePaths.

(** X1: [transform_full] dispatches like [transform]: without a registered
    function for the object's class it raises the lookup error and nothing
    has happened, whatever the buffer; with one it is the buffer's
    [lookup_transform_full] on the target frame, the target time, the
    frame and stamp of the object's header, the fixed frame and the
    timeout, in that order, then the registered function, then [convert]
    when [new_type] is given. *)
Theorem transform_full_dispatch {env : Environment}
    (ancestors : pytype → list pytype)
    (g : globals) (B : Type) (I : BufferInterface B) (self : B)
    (obj target target_time fixed timeout : value)
    (new_type : option pytype) (h : heap) (c : pytype) :
  type_of h obj = Some c →
  (type_map g !! c = None →
   transform_full ancestors g self obj target target_time fixed timeout
     new_type h
   = (Raise (TypeException (not_loaded (str_type c))), h)) ∧
  (∀ f hdr frame_id stamp,
     type_map g !! c = Some f →
     py_getattr obj "header" h = (Ret hdr, h) →
     py_getattr hdr "frame_id" h = (Ret frame_id, h) →
     py_getattr hdr "stamp" h = (Ret stamp, h) →
     transform_full ancestors g self obj target target_time fixed timeout
       new_type h
     = (tf ← lookup_transform_full self target target_time frame_id stamp
               fixed timeout;
        res ← f obj tf;
        match new_type with
        | None => mret res
        | Some T => convert ancestors g res T
        end) h).
Proof.
  intros Hty. split.
  - intros Hmiss. by apply transform_full_unregistered.
  - intros f hdr frame_id stamp Hf Hhdr Hfid Hstamp.
    by eapply transform_full_registered.
Qed.

Lemma transform_full_dispatch_witness :
  transform_full (env := Scenario.env) Scenario.ancestors globals_init Scenario.buffer Scenario.p
    (VStr "base") (VInt 8) (VStr "map") VNone None Scenario.h
  = (Raise (TypeException (not_loaded (str_type "MyPoint"))), Scenario.h) ∧
  transform_full (env := Scenario.env) Scenario.ancestors Scenario.g Scenario.buffer Scenario.p
    (VStr "base") (VInt 8) (VStr "map") VNone (Some "Frame") Scenario.h
  = (tf ← lookup_transform_full Scenario.buffer (VStr "base") (VInt 8)
            (VStr "laser") (VRef 0) (VStr "map") VNone;
     res ← Scenario.do_transform_point Scenario.p tf;
     convert (env := Scenario.env) Scenario.ancestors Scenario.g res "Frame") Scenario.h.
Proof.
  split.
  - destruct (transform_full_dispatch (env := Scenario.env) Scenario.ancestors globals_init _ _
                Scenario.buffer Scenario.p (VStr "base") (VInt 8)
                (VStr "map") VNone None Scenario.h "MyPoint" eq_refl)
      as [H _].
    apply H. reflexivity.
  - destruct (transform_full_dispatch (env := Scenario.env) Scenario.ancestors Scenario.g _ _
                Scenario.buffer Scenario.p (VStr "base") (VInt 8)
                (VStr "map") VNone (Some "Frame") Scenario.h "MyPoint"
                eq_refl) as [_ H].
    apply (H Scenario.do_transform_point (VRef 1)); reflexivity.
Defined.

(** X2: on the class [BufferInterface] itself, where no capability is
    implemented, transforming a registered object with a header raises
    [NotImplementedException] and leaves everything as it was: the
    registered function is never run and [new_type] plays no role. The
    two feasibility checks raise the same exception. *)
Theorem abstract_buffer_is_not_implemented {env : Environment}
    (ancestors : pytype → list pytype)
    (g : globals) (reg : TransformRegistration.t)
    (obj target target_time fixed timeout : value)
    (new_type : option pytype) (h : heap) (c : pytype)
    (f : transform_callback) (hdr frame_id stamp : value) :
  type_of h obj = Some c →
  type_map g !! c = Some f →
  py_getattr obj "header" h = (Ret hdr, h) →
  py_getattr hdr "frame_id" h = (Ret frame_id, h) →
  py_getattr hdr "stamp" h = (Ret stamp, h) →
  transform ancestors g (abstract_buffer reg) obj target timeout new_type h
  = (Raise NotImplementedException, h) ∧
  transform_full ancestors g (abstract_buffer reg) obj target target_time
    fixed timeout new_type h
  = (Raise NotImplementedException, h) ∧
  can_transform (abstract_buffer reg) target frame_id stamp timeout h
  = (Raise NotImplementedException, h) ∧
  can_transform_full (abstract_buffer reg) target target_time frame_id stamp
    fixed timeout h
  = (Raise NotImplementedException, h).
Proof.
  intros Hty Hf Hhdr Hfid Hstamp. split_and!; [| |done|done].
  - by rewrite (transform_registered _ _ _ _ _ _ _ _ _ _ _ _ _
                  Hty Hf Hhdr Hfid Hstamp).
  - by rewrite (transform_full_registered _ _ _ _ _ _ _ _ _ _ _ _ _ _ _
                  Hty Hf Hhdr Hfid Hstamp).
Qed.

Lemma abstract_buffer_is_not_implemented_witness :
  transform (env := Scenario.env) Scenario.ancestors Scenario.g
    (abstract_buffer (TransformRegistration.new 0)) Scenario.p (VStr "base")
    VNone (Some "Frame") Scenario.h
  = (Raise NotImplementedException, Scenario.h).
Proof.
  apply (abstract_buffer_is_not_implemented (env := Scenario.env) Scenario.ancestors Scenario.g
           (TransformRegistration.new 0) Scenario.p (VStr "base") VNone
           VNone VNone (Some "Frame") Scenario.h "MyPoint"
           Scenario.do_transform_point (VRef 1) (VStr "laser") (VRef 0));
    reflexivity.
Defined.

(** X3: [transform] stops at the first stage that raises and raises the
    same exception, from the heap that stage left: an exception of the
    buffer's lookup comes out before the registered function is run, an
    exception of the registered function comes out before any
    conversion, and with [new_type] the outcome of [convert] on the
    transformed object, exception or not, is the outcome of the call. *)
Theorem transform_propagates_errors {env : Environment}
    (ancestors : pytype → list pytype)
    (g : globals) (B : Type) (I : BufferInterface B) (self : B)
    (obj target timeout : value) (new_type : option pytype) (h : heap)
    (c : pytype) (f : transform_callback) (hdr frame_id stamp : value) :
  type_of h obj = Some c →
  type_map g !! c = Some f →
  py_getattr obj "header" h = (Ret hdr, h) →
  py_getattr hdr "frame_id" h = (Ret frame_id, h) →
  py_getattr hdr "stamp" h = (Ret stamp, h) →
  (∀ e h1,
     lookup_transform self target frame_id stamp timeout h = (Raise e, h1) →
     transform ancestors g self obj target timeout new_type h
     = (Raise e, h1)) ∧
  (∀ tf h1 e h2,
     lookup_transform self target frame_id stamp timeout h = (Ret tf, h1) →
     f obj tf h1 = (Raise e, h2) →
     transform ancestors g self obj target timeout new_type h
     = (Raise e, h2)) ∧
  (∀ tf h1 res h2 T,
     lookup_transform self target frame_id stamp timeout h = (Ret tf, h1) →
     f obj tf h1 = (Ret res, h2) →
     new_type = Some T →
     transform ancestors g self obj target timeout new_type h
     = convert ancestors g res T h2).
Proof.
  intros Hty Hf Hhdr Hfid Hstamp.
  rewrite (transform_registered _ _ _ _ _ _ _ _ _ _ _ _ _
             Hty Hf Hhdr Hfid Hstamp).
  split_and!.
  - intros e h1 E. by apply bind_Raise.
  - intros tf h1 e h2 E1 E2. rewrite (bind_Ret _ _ _ _ _ E1).
    by apply bind_Raise.
  - intros tf h1 res h2 T E1 E2 ->. rewrite (bind_Ret _ _ _ _ _ E1).
    by rewrite (bind_Ret _ _ _ _ _ E2).
Qed.

Lemma transform_propagates_errors_witness :
  transform (env := Scenario.env) Scenario.ancestors Scenario.g Scenario.buffer Scenario.p
    (VStr "base") VNone (Some "Pose") Scenario.h
  = convert (env := Scenario.env) Scenario.ancestors Scenario.g (VRef 5) "Pose"
      (Scenario.h ++
         [ Object "std_msgs.msg.Header"
             [("stamp", VRef 0); ("frame_id", VStr "base")];
           Object "TransformStamped"
             [("header", VRef 3); ("child_frame_id", VStr "laser")];
           Object "MyPoint" [("header", VRef 3); ("x", VInt 7)];
           Object "std_msgs.msg.Header"
             [("stamp", VRef 7); ("frame_id", VStr "laser")];
           Object "Time" [("sec", VInt 5)] ]).
Proof.
  destruct (transform_propagates_errors (env := Scenario.env) Scenario.ancestors Scenario.g _ _
              Scenario.buffer Scenario.p (VStr "base") VNone (Some "Pose")
              Scenario.h "MyPoint" Scenario.do_transform_point (VRef 1)
              (VStr "laser") (VRef 0) eq_refl eq_refl eq_refl eq_refl eq_refl)
    as (_ & _ & H).
  eapply (H (VRef 4)); [by vm_compute | by vm_compute | reflexivity].
Defined.

(** X4: the header is read after the registry lookup and before the
    buffer is asked. For a registered object, a missing [header], a
    header without [frame_id] or a header without [stamp] makes both
    [transform] and [transform_full] raise [AttributeError] for that
    attribute, with everything left as it was, whatever the buffer. *)
Theorem transform_needs_a_header {env : Environment}
    (ancestors : pytype → list pytype)
    (g : globals) (B : Type) (I : BufferInterface B) (self : B)
    (l : loc) (o : object) (target target_time fixed timeout : value)
    (new_type : option pytype) (h : heap) (f : transform_callback) :
  h !! l = Some o →
  type_map g !! obj_type o = Some f →
  (attr_get "header" (obj_attrs o) = None →
   transform ancestors g self (VRef l) target timeout new_type h
   = (Raise (AttributeError "header"), h) ∧
   transform_full ancestors g self (VRef l) target target_time fixed timeout
     new_type h
   = (Raise (AttributeError "header"), h)) ∧
  (∀ lh oh,
     attr_get "header" (obj_attrs o) = Some (VRef lh) →
     h !! lh = Some oh →
     attr_get "frame_id" (obj_attrs oh) = None →
     transform ancestors g self (VRef l) target timeout new_type h
     = (Raise (AttributeError "frame_id"), h) ∧
     transform_full ancestors g self (VRef l) target target_time fixed
       timeout new_type h
     = (Raise (AttributeError "frame_id"), h)) ∧
  (∀ lh oh frame_id,
     attr_get "header" (obj_attrs o) = Some (VRef lh) →
     h !! lh = Some oh →
     attr_get "frame_id" (obj_attrs oh) = Some frame_id →
     attr_get "stamp" (obj_attrs oh) = None →
     transform ancestors g self (VRef l) target timeout new_type h
     = (Raise (AttributeError "stamp"), h) ∧
     transform_full ancestors g self (VRef l) target target_time fixed
       timeout new_type h
     = (Raise (AttributeError "stamp"), h)).
Proof.
  intros Hl Hf.
  assert (Hty : type_of h (VRef l) = Some (obj_type o))
    by (simpl; by rewrite Hl).
  split_and!.
  - intros Hnone.
    assert (E : py_getattr (VRef l) "header" h
                = (Raise (AttributeError "header"), h))
      by (unfold py_getattr; by rewrite Hl, Hnone).
    split; [by eapply transform_header_error
           | by eapply transform_full_header_error].
  - intros lh oh Hhdr Hlh Hnone.
    unfold transform, transform_full.
    split.
    all: rewrite (bind_Ret _ _ _ _ _ (py_type_Some _ _ _ Hty)).
    all: rewrite (bind_Ret _ _ h f h)
      by (unfold lift, TransformRegistration.get; by rewrite Hf).
    all: rewrite (bind_Ret _ _ h (VRef lh) h)
      by (unfold py_getattr; by rewrite Hl, Hhdr).
    all: apply bind_Raise; unfold py_getattr; by rewrite Hlh, Hnone.
  - intros lh oh frame_id Hhdr Hlh Hfid Hnone.
    unfold transform, transform_full.
    split.
    all: rewrite (bind_Ret _ _ _ _ _ (py_type_Some _ _ _ Hty)).
    all: rewrite (bind_Ret _ _ h f h)
      by (unfold lift, TransformRegistration.get; by rewrite Hf).
    all: rewrite (bind_Ret _ _ h (VRef lh) h)
      by (unfold py_getattr; by rewrite Hl, Hhdr).
    all: rewrite (bind_Ret _ _ h frame_id h)
      by (unfold py_getattr; by rewrite Hlh, Hfid).
    all: rewrite (bind_Ret _ _ h (VRef lh) h)
      by (unfold py_getattr; by rewrite Hl, Hhdr).
    all: apply bind_Raise; unfold py_getattr; by rewrite Hlh, Hnone.
Qed.

Lemma transform_needs_a_header_witness :
  transform (env := Scenario.env) Scenario.ancestors
    (TransformRegistration.add (TransformRegistration.new 0) "Time"
       Scenario.do_transform_point Scenario.g).2
    Scenario.buffer (VRef 0) (VStr "base") VNone None Scenario.h
  = (Raise (AttributeError "header"), Scenario.h).
Proof.
  destruct (transform_needs_a_header (env := Scenario.env) Scenario.ancestors
              (TransformRegistration.add (TransformRegistration.new 0) "Time"
                 Scenario.do_transform_point Scenario.g).2
              _ _ Scenario.buffer 0 (Object "Time" [("sec", VInt 5)])
              (VStr "base") VNone VNone VNone None Scenario.h
              Scenario.do_transform_point) as (H & _);
    [by vm_compute | by vm_compute |].
  apply H. by vm_compute.
Defined.

(** X5: without [new_type] the conversion tables and the class hierarchy
    play no role in [transform] and [transform_full]: two states of the
    registries with the same table of transform functions give the same
    outcome. *)
Theorem transform_without_new_type_ignores_conversions
    {env : Environment} (ancestors ancestors' : pytype → list pytype) (g g' : globals)
    (B : Type) (I : BufferInterface B) (self : B)
    (obj target target_time fixed timeout : value) (h : heap) :
  type_map g = type_map g' →
  transform ancestors g self obj target timeout None h
  = transform ancestors' g' self obj target timeout None h ∧
  transform_full ancestors g self obj target target_time fixed timeout None h
  = transform_full ancestors' g' self obj target target_time fixed timeout
      None h.
Proof.
  intros Heq.
  unfold transform, transform_full, TransformRegistration.get.
  by rewrite Heq.
Qed.

Lemma transform_without_new_type_ignores_conversions_witness :
  type_map Scenario.g = type_map Scenario.g_failing ∧
  transform (env := Scenario.env) Scenario.ancestors Scenario.g Scenario.buffer Scenario.p
    (VStr "base") VNone None Scenario.h
  = transform (env := Scenario.env) (λ _, []) Scenario.g_failing Scenario.buffer Scenario.p
      (VStr "base") VNone None Scenario.h.
Proof.
  assert (E : type_map Scenario.g = type_map Scenario.g_failing)
    by reflexivity.
  split; [exact E|].
  exact (proj1 (transform_without_new_type_ignores_conversions (env := Scenario.env)
                  Scenario.ancestors (λ _, []) Scenario.g Scenario.g_failing
                  _ _ Scenario.buffer Scenario.p (VStr "base") VNone VNone
                  VNone Scenario.h E)).
Defined.

(** * Further properties of the registries *)

(** X6: a registration writes one entry of one table: after it the entry
    under its key holds its callback, the other three tables are as they
    were, and so is every other key of the table written. *)
Theorem register_writes_one_entry (r : reg_op) (g : globals) :
  match r with
  | RegTransform _ key callback =>
      type_map (register r g).2 !! key = Some callback ∧
      (∀ k, k ≠ key → type_map (register r g).2 !! k = type_map g !! k) ∧
      to_msg_map (register r g).2 = to_msg_map g ∧
      from_msg_map (register r g).2 = from_msg_map g ∧
      convert_map (register r g).2 = convert_map g
  | RegFromMsg _ key callback =>
      from_msg_map (register r g).2 !! key = Some callback ∧
      (∀ k, k ≠ key →
         from_msg_map (register r g).2 !! k = from_msg_map g !! k) ∧
      type_map (register r g).2 = type_map g ∧
      to_msg_map (register r g).2 = to_msg_map g ∧
      convert_map (register r g).2 = convert_map g
  | RegToMsg _ key callback =>
      to_msg_map (register r g).2 !! key = Some callback ∧
      (∀ k, k ≠ key →
         to_msg_map (register r g).2 !! k = to_msg_map g !! k) ∧
      type_map (register r g).2 = type_map g ∧
      from_msg_map (register r g).2 = from_msg_map g ∧
      convert_map (register r g).2 = convert_map g
  | RegConvert _ key callback =>
      convert_map (register r g).2 !! key = Some callback ∧
      (∀ k, k ≠ key →
         convert_map (register r g).2 !! k = convert_map g !! k) ∧
      type_map (register r g).2 = type_map g ∧
      to_msg_map (register r g).2 = to_msg_map g ∧
      from_msg_map (register r g).2 = from_msg_map g
  end.
Proof.
  destruct r; simpl; split_and!; try done;
    try apply lookup_insert_eq;
    intros k Hne; by rewrite lookup_insert_ne.
Qed.

Lemma register_writes_one_entry_witness :
  type_map
    (register (RegTransform (TransformRegistration.new 0) "Vector"
                 Scenario.do_transform_point) Scenario.g).2 !! "Vector"
  = Some Scenario.do_transform_point ∧
  type_map
    (register (RegTransform (TransformRegistration.new 0) "Vector"
                 Scenario.do_transform_point) Scenario.g).2 !! "MyPoint"
  = type_map Scenario.g !! "MyPoint".
Proof.
  destruct (register_writes_one_entry
              (RegTransform (TransformRegistration.new 0) "Vector"
                 Scenario.do_transform_point) Scenario.g) as (H0 & H & _).
  split; [exact H0 | by apply H].
Defined.

(** X7: registrations that write different entries can be made in either
    order: the resulting state of the four tables is the same. *)
Theorem independent_registrations_commute (r1 r2 : reg_op) (g : globals) :
  reg_slot r1 ≠ reg_slot r2 →
  (register r2 (register r1 g).2).2 = (register r1 (register r2 g).2).2.
Proof.
  intros Hne.
  destruct r1 as [s1 k1 f1|s1 k1 f1|s1 k1 f1|s1 k1 f1],
           r2 as [s2 k2 f2|s2 k2 f2|s2 k2 f2|s2 k2 f2];
    simpl in *; try done; f_equal;
    apply insert_insert_ne; congruence.
Qed.

Lemma independent_registrations_commute_witness :
  (register (RegToMsg (ConvertRegistration.new 1) "Vector" (Scenario.sentinel "v"))
     (register (RegToMsg (ConvertRegistration.new 0) "Pose" (Scenario.sentinel "p"))
        Scenario.g).2).2
  = (register (RegToMsg (ConvertRegistration.new 0) "Pose" (Scenario.sentinel "p"))
       (register (RegToMsg (ConvertRegistration.new 1) "Vector" (Scenario.sentinel "v"))
          Scenario.g).2).2.
Proof.
  exact (independent_registrations_commute
           (RegToMsg (ConvertRegistration.new 0) "Pose" (Scenario.sentinel "p"))
           (RegToMsg (ConvertRegistration.new 1) "Vector" (Scenario.sentinel "v"))
           Scenario.g ltac:(discriminate)).
Defined.

(** X8: a registration that is overwritten leaves no trace: registering
    under an entry and then again under the same entry gives the same
    state of the tables as the second registration alone. *)
Theorem overwritten_registration_leaves_no_trace (r1 r2 : reg_op)
    (g : globals) :
  reg_slot r1 = reg_slot r2 →
  (register r2 (register r1 g).2).2 = (register r2 g).2.
Proof.
  intros Heq.
  destruct r1 as [s1 k1 f1|s1 k1 f1|s1 k1 f1|s1 k1 f1],
           r2 as [s2 k2 f2|s2 k2 f2|s2 k2 f2|s2 k2 f2];
    simpl in *; try done; injection Heq as ->; f_equal;
    apply insert_insert_eq.
Qed.

Lemma overwritten_registration_leaves_no_trace_witness :
  (register (RegTransform (TransformRegistration.new 1) "Pose" (λ _ tf, mret tf))
     (register (RegTransform (TransformRegistration.new 0) "Pose"
                  Scenario.do_transform_point) Scenario.g).2).2
  = (register (RegTransform (TransformRegistration.new 1) "Pose" (λ _ tf, mret tf))
       Scenario.g).2.
Proof.
  exact (overwritten_registration_leaves_no_trace
           (RegTransform (TransformRegistration.new 0) "Pose"
              Scenario.do_transform_point)
           (RegTransform (TransformRegistration.new 1) "Pose" (λ _ tf, mret tf))
           Scenario.g eq_refl).
Defined.

(** X9: over a whole sequence of registrations the last one under a key
    wins: the getter of the transform table answers with the function of
    the last [add] under that key in the sequence, with what was there
    before if the sequence has none, and raises if there was nothing. *)
Theorem last_registration_in_sequence_wins (rs : list reg_op) (g : globals)
    (s : TransformRegistration.t) (key : pytype) :
  TransformRegistration.get s key (register_all rs g)
  = match effective_transform key rs (type_map g !! key) with
    | Some callback => Ret callback
    | None => Raise (TypeException (not_loaded (str_type key)))
    end.
Proof.
  unfold TransformRegistration.get.
  assert (E : type_map (register_all rs g) !! key
              = effective_transform key rs (type_map g !! key)).
  { revert g. induction rs as [|r rs IH]; intros g; [done|].
    unfold register_all in *. simpl. rewrite IH.
    destruct r as [s1 k f|s1 k f|s1 k f|s1 k f]; simpl; try done.
    destruct (decide (k = key)) as [->|Hne].
    - by rewrite lookup_insert_eq.
    - by rewrite lookup_insert_ne. }
  rewrite E. by destruct (effective_transform _ _ _).
Qed.

(** X10: in a freshly loaded module nothing is registered: every
    [transform] and [transform_full] raises the lookup error naming the
    class of the object, and [convert] is the copy of a source that is an
    instance of the target type and the lookup error naming the class of
    the source otherwise. *)
Theorem nothing_is_registered_initially {env : Environment}
    (ancestors : pytype → list pytype)
    (B : Type) (I : BufferInterface B) (self : B)
    (obj target target_time fixed timeout : value)
    (new_type : option pytype) (h : heap) (c T : pytype) :
  type_of h obj = Some c →
  transform ancestors globals_init self obj target timeout new_type h
  = (Raise (TypeException (not_loaded (str_type c))), h) ∧
  transform_full ancestors globals_init self obj target target_time fixed
    timeout new_type h
  = (Raise (TypeException (not_loaded (str_type c))), h) ∧
  convert ancestors globals_init obj T h
  = if issubclass ancestors c T then deepcopy obj h
    else (Raise (TypeException (not_loaded (str_type c))), h).
Proof.
  intros Hty. split_and!.
  - by apply transform_unregistered.
  - by apply transform_full_unregistered.
  - rewrite (convert_miss_eq _ _ _ _ _ _ Hty) by done.
    destruct (issubclass ancestors c T) eqn:Hsub.
    + by apply (fallback_isinstance _ _ _ _ _ _ _ Hty).
    + by rewrite (fallback_bridge _ _ _ _ _ _ _ Hty Hsub).
Qed.

Lemma nothing_is_registered_initially_witness :
  convert (env := Scenario.env) Scenario.ancestors globals_init Scenario.p "Vector" Scenario.h
  = (Raise (TypeException (not_loaded (str_type "MyPoint"))), Scenario.h).
Proof.
  exact (proj2 (proj2 (nothing_is_registered_initially (env := Scenario.env) Scenario.ancestors
                         _ _ Scenario.buffer Scenario.p VNone VNone VNone
                         VNone None Scenario.h "MyPoint" "Vector" eq_refl))).
Defined.

(** * Further properties of [convert] *)

(** X11: a direct converter that returns, or raises anything but
    [TypeException], decides the call: [convert] has exactly its outcome
    and its heap, whether or not the source is an instance of the target
    type and whatever the bridge tables hold. In particular a direct
    entry for a pair of equal types replaces the copy. *)
Theorem convert_direct_takes_precedence {env : Environment}
    (ancestors : pytype → list pytype)
    (g : globals) (a : value) (T : pytype) (h : heap) (c : pytype)
    (f : convert_callback) :
  type_of h a = Some c →
  convert_map g !! (c, T) = Some f →
  (∀ s, (f a h).1 ≠ Raise (TypeException s)) →
  convert ancestors g a T h = f a h.
Proof.
  intros Hty Hf Hno. by eapply convert_direct_no_TypeException.
Qed.

Lemma convert_direct_takes_precedence_witness :
  convert (env := Scenario.env) Scenario.ancestors
    (ConvertRegistration.add_convert (ConvertRegistration.new 0)
       ("MyPoint", "MyPoint") (Scenario.sentinel "same") Scenario.g).2
    Scenario.p "MyPoint" Scenario.h
  = (Ret (VStr "same"), Scenario.h).
Proof.
  exact (convert_direct_takes_precedence (env := Scenario.env) Scenario.ancestors
           (ConvertRegistration.add_convert (ConvertRegistration.new 0)
              ("MyPoint", "MyPoint") (Scenario.sentinel "same") Scenario.g).2
           Scenario.p "MyPoint" Scenario.h "MyPoint"
           (Scenario.sentinel "same") eq_refl eq_refl
           ltac:(intros s; discriminate)).
Defined.

(** X12: on the bridge nothing is caught. If [to_msg] raises, [from_msg]
    is not run and the exception comes out; otherwise the outcome of
    [from_msg] on the message is the outcome of the call. That holds for
    [TypeException] too: the handler that covers the direct converter
    does not cover the bridge. *)
Theorem convert_bridge_propagates_errors {env : Environment}
    (ancestors : pytype → list pytype)
    (g : globals) (a : value) (T : pytype) (h : heap) (c : pytype)
    (f_to f_from : convert_callback) :
  type_of h a = Some c →
  convert_map g !! (c, T) = None →
  issubclass ancestors c T = false →
  to_msg_map g !! c = Some f_to →
  from_msg_map g !! T = Some f_from →
  (∀ e h1, f_to a h = (Raise e, h1) →
     convert ancestors g a T h = (Raise e, h1)) ∧
  (∀ msg h1, f_to a h = (Ret msg, h1) →
     convert ancestors g a T h = f_from msg h1).
Proof.
  intros Hty Hmiss Hsub Hto Hfrom.
  rewrite (convert_miss_eq _ _ _ _ _ _ Hty Hmiss).
  rewrite (fallback_bridge _ _ _ _ _ _ _ Hty Hsub).
  unfold lift, ConvertRegistration.get_to_msg,
    ConvertRegistration.get_from_msg, mbind, M_bind.
  rewrite Hto, Hfrom. split.
  - by intros e h1 ->.
  - intros msg h1 ->. by destruct (f_from msg h1) as [[r|e] h2].
Qed.

Lemma convert_bridge_propagates_errors_witness :
  convert (env := Scenario.env) Scenario.ancestors
    (ConvertRegistration.add_to_msg (ConvertRegistration.new 0) "MyPoint"
       Scenario.failing Scenario.g).2
    Scenario.p "Vector" Scenario.h
  = (Raise (TypeException "inner"), Scenario.h).
Proof.
  exact (proj1 (convert_bridge_propagates_errors (env := Scenario.env) Scenario.ancestors
                  (ConvertRegistration.add_to_msg (ConvertRegistration.new 0)
                     "MyPoint" Scenario.failing Scenario.g).2
                  Scenario.p "Vector" Scenario.h "MyPoint" Scenario.failing
                  (Scenario.sentinel "bridge")
                  eq_refl eq_refl eq_refl eq_refl eq_refl)
           (TypeException "inner") Scenario.h eq_refl).
Defined.

(** * Further properties of [Stamped] *)

Lemma attr_set_set name v w d :
  attr_set name v (attr_set name w d) = attr_set name v d.
Proof.
  induction d as [|[k u] d IH]; simpl.
  - by rewrite decide_True.
  - destruct (decide (k = name)) as [->|Hne]; simpl.
    + by rewrite decide_True.
    + rewrite decide_False by done. by rewrite IH.
Qed.

(** X13: [Stamped] cannot stamp an atom: for [None], a [bool], an [int]
    or a [str] the call never returns. When the constructor of the header
    returns, the assignment of the header raises [AttributeError]; the
    header has been made by then, and the state is the one its
    constructor left. *)
Theorem Stamped_rejects_atoms {env : Environment}
    (obj stamp frame_id : value) (h : heap) :
  (∀ l, obj ≠ VRef l) →
  (∀ v h', Stamped obj stamp frame_id h ≠ (Ret v, h')) ∧
  (∀ hdr h1,
     Header frame_id stamp h = (Ret hdr, h1) →
     Stamped obj stamp frame_id h = (Raise (AttributeError "header"), h1)).
Proof.
  intros Hatom. split.
  - intros v h'. destruct (Header frame_id stamp h) as [[hdr|e] h1] eqn:Hhdr.
    + by rewrite (Stamped_atom _ _ _ _ _ _ Hatom Hhdr).
    + by rewrite (Stamped_Header_raises _ _ _ _ _ _ Hhdr).
  - intros hdr h1 Hhdr. by eapply Stamped_atom.
Qed.

Lemma Stamped_rejects_atoms_witness :
  Stamped (env := Scenario.env) (VInt 3) (VInt 9) (VStr "base") Scenario.h
  = (Raise (AttributeError "header"),
     Scenario.h ++ [Object "std_msgs.msg.Header"
                      [("stamp", VInt 9); ("frame_id", VStr "base")]]).
Proof.
  exact (proj2 (Stamped_rejects_atoms (env := Scenario.env) (VInt 3) (VInt 9)
                  (VStr "base") Scenario.h ltac:(intros l; discriminate))
           (VRef 3) _ eq_refl).
Defined.

(** X14: stamping an instance again replaces its header. When the class
    takes a [header] attribute and the two constructor calls return and
    leave the instance alone, the two calls return the instance with its
    attributes as one call with the second header would have made them:
    one [header] attribute, in the place it had, holding the second
    header. *)
Theorem Stamped_again_replaces_the_header {env : Environment}
    (h h1 h2 : heap) (l : loc) (o : object)
    (stamp1 frame1 stamp2 frame2 hdr1 hdr2 : value) :
  Header frame1 stamp1 h = (Ret hdr1, h1) →
  h1 !! l = Some o →
  accepts (obj_type o) "header" = true →
  Header frame2 stamp2
    (<[l := Object (obj_type o) (attr_set "header" hdr1 (obj_attrs o))]> h1)
  = (Ret hdr2, h2) →
  h2 !! l
  = Some (Object (obj_type o) (attr_set "header" hdr1 (obj_attrs o))) →
  (x ← Stamped (VRef l) stamp1 frame1; Stamped x stamp2 frame2) h
  = (Ret (VRef l),
     <[l := Object (obj_type o) (attr_set "header" hdr2 (obj_attrs o))]> h2).
Proof.
  intros Hhdr1 Hl Hacc Hhdr2 Hl2.
  rewrite (bind_Ret _ _ _ _ _ (Stamped_eq _ _ _ _ _ _ _ Hhdr1 Hl Hacc)).
  rewrite (Stamped_eq _ _ _ _ _ _ _ Hhdr2 Hl2 Hacc). simpl.
  by rewrite attr_set_set.
Qed.

Lemma Stamped_again_replaces_the_header_witness :
  (x ← Stamped (env := Scenario.env) Scenario.p (VInt 1) (VStr "odom");
   Stamped (env := Scenario.env) x (VInt 2) (VStr "base")) Scenario.h
  = (Ret (VRef 2),
     [ Object "Time" [("sec", VInt 5)];
       Object "std_msgs.msg.Header"
         [("stamp", VRef 0); ("frame_id", VStr "laser")];
       Object "MyPoint" [("header", VRef 4); ("x", VInt 7)];
       Object "std_msgs.msg.Header"
         [("stamp", VInt 1); ("frame_id", VStr "odom")];
       Object "std_msgs.msg.Header"
         [("stamp", VInt 2); ("frame_id", VStr "base")] ]).
Proof.
  exact (Stamped_again_replaces_the_header (env := Scenario.env)
           Scenario.h _ _ 2
           (Object "MyPoint" [("header", VRef 1); ("x", VInt 7)])
           (VInt 1) (VStr "odom") (VInt 2) (VStr "base") (VRef 3) (VRef 4)
           eq_refl eq_refl eq_refl eq_refl eq_refl).
Defined.

(** X15: what [Stamped] writes is what [transform] reads. When the
    constructor returns a header other than the instance itself, holding
    the frame and the stamp it was given, and the class is registered
    and takes a [header] attribute, transforming the instance right after
    stamping it asks the buffer for the transform from that frame at that
    stamp, whatever header the instance had before, and hands the stamped
    instance itself to the registered function. *)
Theorem transform_after_Stamped {env : Environment}
    (ancestors : pytype → list pytype)
    (g : globals) (B : Type) (I : BufferInterface B) (self : B)
    (l : loc) (o : object) (stamp frame_id hdr target timeout : value)
    (new_type : option pytype) (h h1 : heap) (f : transform_callback) :
  Header frame_id stamp h = (Ret hdr, h1) →
  h1 !! l = Some o →
  accepts (obj_type o) "header" = true →
  hdr ≠ VRef l →
  py_getattr hdr "frame_id" h1 = (Ret frame_id, h1) →
  py_getattr hdr "stamp" h1 = (Ret stamp, h1) →
  type_map g !! obj_type o = Some f →
  (x ← Stamped (VRef l) stamp frame_id;
   transform ancestors g self x target timeout new_type) h
  = (tf ← lookup_transform self target frame_id stamp timeout;
     res ← f (VRef l) tf;
     match new_type with
     | None => mret res
     | Some T => convert ancestors g res T
     end)
      (<[l := Object (obj_type o) (attr_set "header" hdr (obj_attrs o))]> h1).
Proof.
  intros Hhdr Hl Hacc Hne Hfid Hstamp Hf.
  pose proof (lookup_lt_Some _ _ _ Hl) as Hlt.
  rewrite (bind_Ret _ _ _ _ _ (Stamped_eq _ _ _ _ _ _ _ Hhdr Hl Hacc)).
  set (o1 := Object (obj_type o) (attr_set "header" hdr (obj_attrs o))).
  set (h2 := <[l := o1]> h1).
  assert (Hl2 : h2 !! l = Some o1) by by apply list_lookup_insert_eq.
  assert (Hsame : ∀ name v, py_getattr hdr name h1 = (Ret v, h1) →
                            py_getattr hdr name h2 = (Ret v, h2)).
  { intros name v. unfold py_getattr. destruct hdr as [| | | |lh]; try done.
    unfold h2. rewrite list_lookup_insert_ne by congruence.
    destruct (h1 !! lh) as [oh|]; [|done].
    destruct (attr_get name (obj_attrs oh)); [|done]. congruence. }
  apply (transform_registered ancestors g self (VRef l) target timeout
           new_type h2 (obj_type o) f hdr frame_id stamp).
  - simpl. by rewrite Hl2.
  - done.
  - unfold py_getattr. rewrite Hl2. simpl. by rewrite attr_get_set_eq.
  - by apply Hsame.
  - by apply Hsame.
Qed.

Lemma transform_after_Stamped_witness :
  (x ← Stamped (env := Scenario.env) Scenario.p (VInt 9) (VStr "odom");
   transform (env := Scenario.env) Scenario.ancestors Scenario.g
     Scenario.buffer x (VStr "base") VNone None) Scenario.h
  = (tf ← lookup_transform Scenario.buffer (VStr "base") (VStr "odom")
            (VInt 9) VNone;
     res ← Scenario.do_transform_point Scenario.p tf;
     mret res)
      [ Object "Time" [("sec", VInt 5)];
        Object "std_msgs.msg.Header"
          [("stamp", VRef 0); ("frame_id", VStr "laser")];
        Object "MyPoint" [("header", VRef 3); ("x", VInt 7)];
        Object "std_msgs.msg.Header"
          [("stamp", VInt 9); ("frame_id", VStr "odom")] ].
Proof.
  exact (transform_after_Stamped (env := Scenario.env) Scenario.ancestors
           Scenario.g _ _ Scenario.buffer 2
           (Object "MyPoint" [("header", VRef 1); ("x", VInt 7)])
           (VInt 9) (VStr "odom") (VRef 3) (VStr "base") VNone None
           Scenario.h _ Scenario.do_transform_point
           eq_refl eq_refl eq_refl ltac:(discriminate) eq_refl eq_refl
           eq_refl).
Defined.

(** * Further properties of the copy made by [convert] *)

Lemma region_intro (h : heap) (R : gset loc) :
  (∀ k, k ∈ R →
        ∃ o, h !! k = Some o ∧ copy_protocol (obj_attrs o) = Ret () ∧
             Forall (λ a, in_region R a.2) (obj_attrs o)) →
  region h R.
Proof.
  intros Hall. unfold region, regionb.
  apply Is_true_true_1, forallb_True, Forall_forall.
  intros k Hk%elem_of_elements.
  destruct (Hall k Hk) as (o & -> & -> & Hok). simpl.
  apply forallb_True. eapply Forall_impl; [exact Hok|].
  intros [name v]. simpl. destruct v; simpl; try done.
  apply bool_decide_pack.
Qed.

Lemma attrs_rel_get (m : memo) d d' name :
  attrs_rel m d d' →
  option_Forall2 (vrel m) (attr_get name d) (attr_get name d').
Proof.
  unfold attrs_rel. induction 1 as [|[k v] [k' v'] d d' [Hk Hv] _ IH]; simpl.
  - constructor.
  - simpl in Hk, Hv. subst k'. destruct (decide (k = name)); [|done].
    by constructor.
Qed.

Lemma vrel_cases (m : memo) v v' :
  vrel m v v' →
  (v' = v ∧ ∀ l, v ≠ VRef l) ∨ (∃ x y, v = VRef x ∧ v' = VRef y).
Proof.
  destruct v; simpl; try (intros ->; by left).
  intros (y & _ & ->). right. eauto.
Qed.

(** The copy protocol looks at the instance's own attributes only, and
    only at whether they are there, are [None], or are true. *)
Lemma copy_protocol_rel (m : memo) d d' :
  attrs_rel m d d' → copy_protocol d' = copy_protocol d.
Proof.
  intros Hat. unfold copy_protocol, copy_getstate.
  pose proof (attrs_rel_get m d d' "__deepcopy__" Hat) as H1.
  pose proof (attrs_rel_get m d d' "__reduce_ex__" Hat) as H2.
  pose proof (attrs_rel_get m d d' "__reduce__" Hat) as H3.
  pose proof (attrs_rel_get m d d' "__getstate__" Hat) as H4.
  destruct H1 as [? ? [[-> _]|(? & ? & -> & ->)]%vrel_cases|];
    destruct H2 as [? ? [[-> _]|(? & ? & -> & ->)]%vrel_cases|];
    destruct H3 as [? ? [[-> _]|(? & ? & -> & ->)]%vrel_cases|];
    destruct H4 as [? ? [[-> _]|(? & ? & -> & ->)]%vrel_cases|];
    reflexivity.
Qed.

Lemma map_img_size (m : memo) : size (map_img m : gset loc) ≤ size m.
Proof.
  induction m as [|k y m Hk IH] using map_ind.
  - by rewrite map_img_empty_L, size_empty, map_size_empty.
  - rewrite map_size_insert_None by done.
    etrans; [apply subseteq_size, map_img_insert_subseteq|].
    rewrite size_union_alt, size_singleton.
    assert (Hle : size ((map_img m : gset loc) ∖ {[y]})
                  ≤ size (map_img m : gset loc))
      by (apply subseteq_size, subseteq_difference_l; done).
    lia.
Qed.

Section CopyStructure.

Variable h0 : heap.
Variable R : gset loc.
Hypothesis HR : region h0 R.
Variables (m : memo) (h' : heap).
Hypothesis Hinv : copy_inv h0 [] m h'.
Hypothesis Hdom : dom m ⊆ R.

(** The copies form a region of the new heap, one no larger than the
    memo: a copy can be copied again. *)
Lemma copy_region : region h' (map_img m).
Proof.
  apply region_intro. intros y (k & Hk)%elem_of_map_img.
  destruct (inv_done _ _ _ _ Hinv k y Hk) as (o & o' & Ho & Ho' & _ & Hat);
    [by intros ?%elem_of_nil|].
  assert (HkR : k ∈ R) by (apply Hdom; by apply elem_of_dom).
  destruct (region_lookup _ _ _ HR HkR) as (o0 & Ho0 & Hp & _).
  assert (o0 = o) as -> by congruence.
  exists o'. split_and!; [done| |].
  - by rewrite (copy_protocol_rel _ _ _ Hat).
  - clear -Hat. unfold attrs_rel in Hat.
    induction Hat as [|[n v] [n' v'] d d' [_ Hv] _ IH]; constructor; [|done].
    simpl in *. destruct v; simpl in Hv; subst; try done.
    destruct Hv as (y' & Hy' & ->). simpl. apply elem_of_map_img. eauto.
Qed.

Lemma follow_rel path : ∀ v v',
  vrel m v v' →
  option_Forall2 (vrel m) (follow h0 v path) (follow h' v' path).
Proof.
  induction path as [|name path IH]; intros v v' Hrel; simpl.
  - by constructor.
  - destruct v as [| | | |l]; simpl in Hrel; try (subst v'; constructor).
    destruct Hrel as (y & Hy & ->).
    destruct (inv_done _ _ _ _ Hinv l y Hy) as (o & o' & Ho & Ho' & _ & Hat);
      [by intros ?%elem_of_nil|].
    rewrite Ho, Ho'.
    pose proof (attrs_rel_get _ _ _ name Hat) as Hget.
    destruct (attr_get name (obj_attrs o)) as [u|] eqn:Eu;
      destruct (attr_get name (obj_attrs o')) as [u'|] eqn:Eu';
      inversion Hget as [? ? Hu|]; subst; [|constructor].
    by apply IH.
Qed.

Lemma vrel_same v w v' w' :
  vrel m v v' → vrel m w w' → (v' = w' ↔ v = w).
Proof.
  intros Hv Hw.
  destruct v as [| | | |x], w as [| | | |x2]; simpl in Hv, Hw;
    try destruct Hv as (y & Hy & ->); try destruct Hw as (y2 & Hy2 & ->);
    subst; try (split; congruence).
  split.
  - intros [= ->]. f_equal. by eapply (inv_inj _ _ _ _ Hinv).
  - intros [= ->]. congruence.
Qed.

End CopyStructure.




